(** * Join-date mapping: a shallow embedding of [join-date-mapping.js]

    The serverless function receives a Stripe webhook event, looks the
    customer up in HubSpot by email and stamps [join_date] once.  The
    embedding follows the source function by function:

    - JavaScript values are the JSON values the handler receives and builds
      ([JsVal]); an object is the list of its own properties, the first
      binding of a key being the property.  Numbers are the integer-valued
      ones, and [None] in an [option Z] stands for NaN;
    - [try]/[catch]/[throw] and [await] become an error-and-state monad [M]
      over a [World]: the CRM's own state plus the trace of everything the
      invocation did, in order (console lines, CRM calls, responses sent);
    - the HubSpot client is an interface ([Crm]): any behaviour of the three
      endpoints the handler uses, rejections included;
    - what the engine decides and the file does not show (the number a text
      stands for, the text of a number, the JSON parser) is a [Platform];
    - [Date] follows ECMAScript's date algorithms (Day, DayFromYear,
      YearFromTime, MonthFromTime, DateFromTime, toISOString).

    Two things are taken for granted: a thrown value is an [Error] object,
    of which only [message] is read, and the platform's [sendResponse]
    records the response and returns. *)

From Stdlib Require Import ZArith Lia List String Ascii Bool DecimalString.
Import ListNotations.
Open Scope string_scope.
Open Scope Z_scope.

(** ** JavaScript values *)

#[local] Set Warnings "-register-all".

Inductive JsVal : Type :=
| JUndefined
| JNull
| JBool (b : bool)
| JNum (z : Z)
| JStr (s : string)
| JArr (items : list JsVal)
| JObj (fields : list (string * JsVal)).

(** A thrown value: every [throw] of the source throws an [Error], and the
    handlers only ever read its [message]. *)
Record JsError : Type := mkError { message : string }.

Inductive Result (A : Type) : Type :=
| Ok (a : A)
| Throw (e : JsError).
Arguments Ok {A} a.
Arguments Throw {A} e.

Definition rbind {A B} (r : Result A) (k : A -> Result B) : Result B :=
  match r with
  | Ok a => k a
  | Throw e => Throw e
  end.

(** What the engine supplies and the file does not spell out: the numeric
    value of a string, the text of a number, and the JSON parser. *)
Class Platform : Type := {
  StringToNumber : string -> option Z;
  NumberToString : Z -> string;
  JSON_parse : string -> Result JsVal
}.

(** [!v] is [negb (truthy v)]. *)
Definition truthy (v : JsVal) : bool :=
  match v with
  | JUndefined | JNull => false
  | JBool b => b
  | JNum z => negb (z =? 0)%Z
  | JStr s => negb (s =? "")%string
  | JArr _ | JObj _ => true
  end.

Definition nullish (v : JsVal) : bool :=
  match v with
  | JUndefined | JNull => true
  | _ => false
  end.

Definition js_typeof (v : JsVal) : string :=
  match v with
  | JUndefined => "undefined"
  | JNull | JArr _ | JObj _ => "object"
  | JBool _ => "boolean"
  | JNum _ => "number"
  | JStr _ => "string"
  end.

Fixpoint lookup (k : string) (fields : list (string * JsVal)) : JsVal :=
  match fields with
  | [] => JUndefined
  | (k', v) :: rest => if (k =? k')%string then v else lookup k rest
  end.

(** [v.length] and [v[0]] on the values that have them. *)
Definition js_length (v : JsVal) : JsVal :=
  match v with
  | JArr items => JNum (Z.of_nat (List.length items))
  | JStr s => JNum (Z.of_nat (String.length s))
  | JObj fields => lookup "length" fields
  | _ => JUndefined
  end.

Definition js_first (v : JsVal) : JsVal :=
  match v with
  | JArr items => hd JUndefined items
  | JStr (String c _) => JStr (String c EmptyString)
  | JObj fields => lookup "0" fields
  | _ => JUndefined
  end.

(** [v.k] for a named own property, once [v] is known not to be nullish:
    a primitive has none of the names used here. *)
Definition prop (v : JsVal) (k : string) : JsVal :=
  match v with
  | JObj fields => lookup k fields
  | _ => JUndefined
  end.

Definition TypeError_read (v : JsVal) (k : string) : JsError :=
  mkError ("Cannot read properties of "
           ++ (match v with JNull => "null" | _ => "undefined" end)
           ++ " (reading '" ++ k ++ "')").

(** [v.k]: a TypeError on [undefined] and [null]. *)
Definition get (v : JsVal) (k : string) : Result JsVal :=
  if nullish v then Throw (TypeError_read v k) else Ok (prop v k).

(** [v?.k] *)
Definition get_opt (v : JsVal) (k : string) : JsVal :=
  if nullish v then JUndefined else prop v k.

(** [a || b] with [b] already evaluated (every right operand here is pure). *)
Definition js_or (a b : JsVal) : JsVal := if truthy a then a else b.

Definition has_key (k : string) (fields : list (string * JsVal)) : bool :=
  existsb (fun kv => (fst kv =? k)%string) fields.

Definition TypeError_primitive : JsError :=
  mkError "Cannot convert object to primitive value".

Section Conversions.
Context {platform : Platform}.

Definition join_comma (parts : list string) : string :=
  String.concat "," parts.

(** ToString.  An array joins its elements with commas, [undefined] and
    [null] elements giving the empty text; a plain object is
    "[object Object]" unless an own data property hides [toString]. *)
Fixpoint ToString (v : JsVal) : Result string :=
  match v with
  | JUndefined => Ok "undefined"
  | JNull => Ok "null"
  | JBool true => Ok "true"
  | JBool false => Ok "false"
  | JNum z => Ok (NumberToString z)
  | JStr s => Ok s
  | JArr items =>
      let elements :=
        (fix elements (l : list JsVal) : Result (list string) :=
           match l with
           | [] => Ok []
           | x :: rest =>
               rbind (if nullish x then Ok "" else ToString x) (fun s =>
               rbind (elements rest) (fun ss => Ok (s :: ss)))
           end) in
      rbind (elements items) (fun ss => Ok (join_comma ss))
  | JObj fields =>
      if has_key "toString" fields then Throw TypeError_primitive
      else Ok "[object Object]"
  end.

(** ToNumber: [None] is NaN.  An array or object goes through its text. *)
Definition ToNumber (v : JsVal) : Result (option Z) :=
  match v with
  | JUndefined => Ok None
  | JNull => Ok (Some 0)
  | JBool b => Ok (Some (if b then 1 else 0))
  | JNum z => Ok (Some z)
  | JStr s => Ok (StringToNumber s)
  | JArr _ | JObj _ => rbind (ToString v) (fun s => Ok (StringToNumber s))
  end.

(** [v > 0] *)
Definition js_gt_zero (v : JsVal) : Result bool :=
  rbind (ToNumber v) (fun n =>
    Ok (match n with Some z => 0 <? z | None => false end)).

End Conversions.

(** ** Dates: ECMAScript's time values

    A time value is a number of milliseconds since the epoch, or NaN
    ([None]).  The day arithmetic below is ECMAScript's (Day, DayFromYear,
    YearFromTime, MonthFromTime, DateFromTime); [YearFromTime], which the
    language only characterises as the largest year starting at or before
    the instant, is computed from an estimate that is off by at most one. *)

Module JsDate.

Definition msPerDay : Z := 86400000.
Definition maxTime : Z := 8640000000000000.

Definition Day (t : Z) : Z := t / msPerDay.

Definition DaysInYear (y : Z) : Z :=
  if negb (y mod 4 =? 0) then 365
  else if negb (y mod 100 =? 0) then 366
  else if negb (y mod 400 =? 0) then 365
  else 366.

Definition DayFromYear (y : Z) : Z :=
  365 * (y - 1970) + (y - 1969) / 4 - (y - 1901) / 100 + (y - 1601) / 400.

Definition TimeFromYear (y : Z) : Z := msPerDay * DayFromYear y.

Definition YearFromTime (t : Z) : Z :=
  let y := (400 * (Day t + 719528)) / 146097 in
  if TimeFromYear (y + 1) <=? t then y + 1
  else if TimeFromYear y <=? t then y
  else y - 1.

Definition InLeapYear (t : Z) : Z :=
  if DaysInYear (YearFromTime t) =? 366 then 1 else 0.

Definition DayWithinYear (t : Z) : Z := Day t - DayFromYear (YearFromTime t).

(** Months count from 0 (January). *)
Definition MonthFromTime (t : Z) : Z :=
  let d := DayWithinYear t in
  let leap := InLeapYear t in
  if d <? 31 then 0
  else if d <? 59 + leap then 1
  else if d <? 90 + leap then 2
  else if d <? 120 + leap then 3
  else if d <? 151 + leap then 4
  else if d <? 181 + leap then 5
  else if d <? 212 + leap then 6
  else if d <? 243 + leap then 7
  else if d <? 273 + leap then 8
  else if d <? 304 + leap then 9
  else if d <? 334 + leap then 10
  else 11.

Definition DateFromTime (t : Z) : Z :=
  let d := DayWithinYear t in
  let leap := InLeapYear t in
  match MonthFromTime t with
  | 0 => d + 1
  | 1 => d - 30
  | 2 => d - 58 - leap
  | 3 => d - 89 - leap
  | 4 => d - 119 - leap
  | 5 => d - 150 - leap
  | 6 => d - 180 - leap
  | 7 => d - 211 - leap
  | 8 => d - 242 - leap
  | 9 => d - 272 - leap
  | 10 => d - 303 - leap
  | _ => d - 333 - leap
  end.

Definition HourFromTime (t : Z) : Z := (t / 3600000) mod 24.
Definition MinFromTime (t : Z) : Z := (t / 60000) mod 60.
Definition SecFromTime (t : Z) : Z := (t / 1000) mod 60.
Definition msFromTime (t : Z) : Z := t mod 1000.

(** A [Date] object: its time value. *)
Record Date : Type := mkDate { time_value : option Z }.

(** [new Date(value)] for a number: TimeClip. *)
Definition new_Date (value : option Z) : Date :=
  mkDate (match value with
          | Some v => if Z.abs v <=? maxTime then Some v else None
          | None => None
          end).

Definition digit (d : Z) : ascii := ascii_of_nat (48 + Z.to_nat d).

(** The last [width] decimal digits of [n], zero-padded. *)
Fixpoint digits (width : nat) (n : Z) : string :=
  match width with
  | O => ""
  | S w => digits w (n / 10) ++ String (digit (n mod 10)) ""
  end.

(** Four digits for the years 0 to 9999, a sign and six digits otherwise. *)
Definition year_text (y : Z) : string :=
  if (0 <=? y) && (y <=? 9999) then digits 4 y
  else (if 0 <=? y then "+" else "-") ++ digits 6 (Z.abs y).

Definition RangeError_time : JsError := mkError "Invalid time value".

Definition toISOString (d : Date) : Result string :=
  match time_value d with
  | None => Throw RangeError_time
  | Some t =>
      Ok (year_text (YearFromTime t) ++ "-" ++
          digits 2 (MonthFromTime t + 1) ++ "-" ++
          digits 2 (DateFromTime t) ++ "T" ++
          digits 2 (HourFromTime t) ++ ":" ++
          digits 2 (MinFromTime t) ++ ":" ++
          digits 2 (SecFromTime t) ++ "." ++
          digits 3 (msFromTime t) ++ "Z")
  end.

End JsDate.

(** [s.split(sep)] for a one-character separator. *)
Fixpoint split_on (sep : ascii) (s : string) : list string :=
  match s with
  | EmptyString => [EmptyString]
  | String c rest =>
      if Ascii.eqb c sep then EmptyString :: split_on sep rest
      else match split_on sep rest with
           | piece :: pieces => String c piece :: pieces
           | [] => [String c EmptyString]
           end
  end.

(** [pieces[0]] *)
Definition first_piece (pieces : list string) : JsVal :=
  match pieces with
  | [] => JUndefined
  | p :: _ => JStr p
  end.

(** [try { ... } catch (error) { ... }] around a computation without
    effects. *)
Definition rcatch {A} (r : Result A) (handler : JsError -> Result A) : Result A :=
  match r with
  | Ok a => Ok a
  | Throw error => handler error
  end.

Section FormatJoinDate.
Context {platform : Platform}.

(** [n * 1000].  The product is kept exact: a product too large for a
    double to hold exactly is beyond what [Date] accepts, rounded or not. *)
Definition times_1000 (v : JsVal) : Result (option Z) :=
  rbind (ToNumber v) (fun n => Ok (option_map (fun z => z * 1000) n)).

Definition formatJoinDate (unixTimestamp : JsVal) : Result JsVal :=
  rcatch
    (rbind (times_1000 unixTimestamp) (fun ms =>
     let date := JsDate.new_Date ms in
     rbind (JsDate.toISOString date) (fun iso =>
     Ok (first_piece (split_on "T" iso)))))
    (fun error => Throw (mkError ("Date formatting failed: " ++ message error))).

End FormatJoinDate.

(** ** The world: HubSpot, the console and the platform's [sendResponse]

    [hubspotClient] is the object built from the access token; the handler
    uses three of its endpoints. *)

Record Client : Type := mkClient { accessToken : JsVal }.

Inductive Call : Type :=
| GetAllProperties (objectType archived : JsVal)
    (* crm.properties.coreApi.getAll *)
| DoSearch (request : JsVal)
    (* crm.contacts.searchApi.doSearch *)
| Update (id patch : JsVal).
    (* crm.contacts.basicApi.update *)

Inductive Level : Type := Info | Error.

(** One argument of a console line.  Text that the program computes is
    kept as text; a value handed to the console, its JSON text and its list
    of keys are kept as the value. *)
Inductive LogArg : Type :=
| LStr (s : string)
| LVal (v : JsVal)
| LJson (v : JsVal)
| LKeys (v : JsVal)
| LError (e : JsError)
| LStack (e : JsError).

Inductive Event : Type :=
| ELog (level : Level) (args : list LogArg)
| ECall (client : Client) (call : Call)
| EResponse (response : JsVal).

(** The CRM as the handler meets it: each call is answered with a value or
    a rejection, and may change the CRM's state. *)
Class Crm (S : Type) : Type := {
  crm_call : Client -> Call -> S -> Result JsVal * S
}.

Record World (S : Type) : Type := mkWorld {
  crm_state : S;
  trace : list Event
}.
Arguments mkWorld {S} _ _.
Arguments crm_state {S} _.
Arguments trace {S} _.

Definition M (S A : Type) : Type := World S -> Result A * World S.

Definition ret {S A} (a : A) : M S A := fun w => (Ok a, w).

Definition throw {S A} (e : JsError) : M S A := fun w => (Throw e, w).

Definition bind {S A B} (m : M S A) (k : A -> M S B) : M S B :=
  fun w =>
    match m w with
    | (Ok a, w') => k a w'
    | (Throw e, w') => (Throw e, w')
    end.

Definition try_catch {S A} (m : M S A) (handler : JsError -> M S A) : M S A :=
  fun w =>
    match m w with
    | (Ok a, w') => (Ok a, w')
    | (Throw e, w') => handler e w'
    end.

Definition lift {S A} (r : Result A) : M S A := fun w => (r, w).

Definition emit {S} (e : Event) : M S JsVal :=
  fun w => (Ok JUndefined, mkWorld (crm_state w) (trace w ++ [e])).

Definition console_log {S} (args : list LogArg) : M S JsVal := emit (ELog Info args).
Definition console_error {S} (args : list LogArg) : M S JsVal := emit (ELog Error args).

(** The platform's callback: it takes the response and returns. *)
Definition sendResponse {S} (response : JsVal) : M S JsVal := emit (EResponse response).

(** [await client.<endpoint>(...)] *)
Definition await_call {S} {hubspot : Crm S} (client : Client) (call : Call) : M S JsVal :=
  fun w =>
    let '(r, s') := crm_call client call (crm_state w) in
    (r, mkWorld s' (trace w ++ [ECall client call])).

Declare Scope js_scope.
Delimit Scope js_scope with js.
Notation "x <- m ;; k" := (bind m (fun x => k))
  (at level 100, m at next level, right associativity) : js_scope.
Notation "m ;; k" := (bind m (fun _ => k))
  (at level 100, right associativity) : js_scope.
Open Scope js_scope.

(** ** JSON.parse(JSON.stringify(v))

    Stringifying drops the properties whose value is [undefined], writes
    [null] for such an array element, and gives no text at all for
    [undefined] itself, which [JSON.parse] then rejects. *)

Fixpoint json_copy (v : JsVal) : JsVal :=
  match v with
  | JArr items =>
      JArr (map (fun x => match x with JUndefined => JNull | _ => json_copy x end) items)
  | JObj fields =>
      JObj ((fix copy_fields (l : list (string * JsVal)) : list (string * JsVal) :=
               match l with
               | [] => []
               | (k, JUndefined) :: rest => copy_fields rest
               | (k, x) :: rest => (k, json_copy x) :: copy_fields rest
               end) fields)
  | _ => v
  end.

Definition SyntaxError_json : JsError :=
  mkError "Unexpected token u in JSON at position 0".

(** ** The handler *)

Definition checkout_completed : string := "checkout.session.completed".

(** [v !== s] for a string literal [s] *)
Definition differs_from (v : JsVal) (s : string) : bool :=
  match v with
  | JStr s' => negb (s' =? s)%string
  | _ => true
  end.

Definition search_request (email : JsVal) : JsVal :=
  JObj [("filterGroups",
         JArr [JObj [("filters",
                      JArr [JObj [("propertyName", JStr "email");
                                  ("operator", JStr "EQ");
                                  ("value", email)]])]]);
        ("properties", JArr [JStr "join_date"]);
        ("limit", JNum 1)].

(** [searchResult?.results || searchResult?.body?.results || []] *)
Definition select_results (searchResult : JsVal) : JsVal :=
  js_or (js_or (get_opt searchResult "results")
               (get_opt (get_opt searchResult "body") "results"))
        (JArr []).

Definition join_date_patch (joinDate : JsVal) : JsVal :=
  JObj [("properties", JObj [("join_date", joinDate)])].

Definition skipped_result (contact_id existing : JsVal) : JsVal :=
  JObj [("success", JBool true);
        ("action", JStr "skipped");
        ("message", JStr "Join date already exists");
        ("contactId", contact_id);
        ("existingJoinDate", existing)].

Definition updated_result (contact_id joinDate customerEmail : JsVal) : JsVal :=
  JObj [("success", JBool true);
        ("action", JStr "updated");
        ("message", JStr "Join date successfully set");
        ("contactId", contact_id);
        ("joinDate", joinDate);
        ("contactEmail", customerEmail)].

Definition ignored_response (text : string) : JsVal :=
  JObj [("statusCode", JNum 200);
        ("body", JObj [("status", JStr "ignored");
                       ("message", JStr text)])].

Definition success_response (result event_id : JsVal) : JsVal :=
  JObj [("statusCode", JNum 200);
        ("body", JObj [("status", JStr "success");
                       ("action", prop result "action");
                       ("message", prop result "message");
                       ("data", JObj [("contactId", prop result "contactId");
                                      ("joinDate", prop result "joinDate");
                                      ("contactEmail", prop result "contactEmail");
                                      ("existingJoinDate", prop result "existingJoinDate");
                                      ("eventId", event_id)])])].

Definition error_response (text : string) : JsVal :=
  JObj [("statusCode", JNum 500);
        ("body", JObj [("status", JStr "error");
                       ("message", JStr text)])].

Section Handler.
Context {platform : Platform} {S : Type} {hubspot : Crm S}.

Definition findContactByEmail (hubspotClient : Client) (email : JsVal) : M S JsVal :=
  try_catch
    (text <- lift (ToString email) ;;
     console_log [LStr ("Searching for contact with email: " ++ text)] ;;
     searchResult <- await_call hubspotClient (DoSearch (search_request email)) ;;
     console_log [LStr "Full searchResult:"; LJson searchResult] ;;
     console_log [LStr "searchResult type:"; LStr (js_typeof searchResult)] ;;
     console_log [LStr "searchResult keys:"; LKeys (js_or searchResult (JObj []))] ;;
     (if truthy searchResult && truthy (prop searchResult "body") then
        let body := prop searchResult "body" in
        console_log [LStr "Response has body property"] ;;
        console_log [LStr "body type:"; LStr (js_typeof body)] ;;
        console_log [LStr "body keys:"; LKeys (js_or body (JObj []))]
      else ret JUndefined) ;;
     let results := select_results searchResult in
     count <- lift (ToString (js_length results)) ;;
     console_log [LStr ("Found " ++ count ++ " contacts")] ;;
     some <- lift (js_gt_zero (js_length results)) ;;
     ret (if some : bool then js_first results else JNull))
    (fun error =>
       console_error [LStr "Search error details:"; LError error] ;;
       console_error [LStr "Error stack:"; LStack error] ;;
       throw (mkError ("Contact search failed: " ++ message error))).

Definition processJoinDateMapping
    (hubspotClient : Client) (stripeEvent customerEmail : JsVal) : M S JsVal :=
  try_catch
    (if negb (truthy customerEmail) then
       throw (mkError "No customer email found in checkout session")
     else
       created <- lift (get stripeEvent "created") ;;
       joinDate <- lift (formatJoinDate created) ;;
       contact <- findContactByEmail hubspotClient customerEmail ;;
       if negb (truthy contact) then
         text <- lift (ToString customerEmail) ;;
         throw (mkError ("No contact found with email: " ++ text))
       else
         existing <- lift (get (prop contact "properties") "join_date") ;;
         if truthy existing then
           id_text <- lift (ToString (prop contact "id")) ;;
           console_log [LStr ("Join date already set for contact " ++ id_text)] ;;
           ret (skipped_result (prop contact "id") existing)
         else
           await_call hubspotClient
             (Update (prop contact "id") (join_date_patch joinDate)) ;;
           date_text <- lift (ToString joinDate) ;;
           id_text <- lift (ToString (prop contact "id")) ;;
           console_log [LStr ("Join date set: " ++ date_text ++
                              " for contact " ++ id_text)] ;;
           ret (updated_result (prop contact "id") joinDate customerEmail))
    (fun error =>
       console_error [LStr ("Processing failed: " ++ message error)] ;;
       throw error).

(** [context.secrets.joinDateKey] *)
Definition read_secret (context : JsVal) : Result JsVal :=
  rbind (get context "secrets") (fun secrets => get secrets "joinDateKey").

(** [context.body.data.object.customer_details.email] *)
Definition read_customer_email (context : JsVal) : Result JsVal :=
  rbind (get context "body") (fun body =>
  rbind (get body "data") (fun data =>
  rbind (get data "object") (fun object =>
  rbind (get object "customer_details") (fun details =>
  get details "email")))).

(** [JSON.parse(typeof body === 'string' ? body : JSON.stringify(body))] *)
Definition parse_event (body : JsVal) : Result JsVal :=
  match body with
  | JStr rawBody => JSON_parse rawBody
  | JUndefined => Throw SyntaxError_json
  | _ => Ok (json_copy body)
  end.

(** The [try] block of [exports.main], with the call to
    [processJoinDateMapping] taken as the argument [process]. *)
Definition main_try
    (process : Client -> JsVal -> JsVal -> M S JsVal)
    (context : JsVal) : M S JsVal :=
  hubspotToken <- lift (read_secret context) ;;
  if negb (truthy hubspotToken) then
    throw (mkError "Missing required secret: joinDateKey")
  else
    let hubspotClient := mkClient hubspotToken in
    try_catch
      (console_log [LStr "Testing HubSpot API connectivity..."] ;;
       await_call hubspotClient (GetAllProperties (JStr "contacts") (JBool false)) ;;
       console_log [LStr "HubSpot API connectivity confirmed"])
      (fun apiError =>
         console_error [LStr "HubSpot API test failed:"; LStr (message apiError)] ;;
         throw (mkError ("HubSpot authentication failed: " ++ message apiError))) ;;
    customerEmail <- lift (read_customer_email context) ;;
    console_log [LStr "Processing for customer email:"; LVal customerEmail] ;;
    if negb (truthy customerEmail) then
      throw (mkError "No customer email found in webhook data")
    else
      stripeEvent <- lift (rbind (get context "body") parse_event) ;;
      event_type <- lift (get stripeEvent "type") ;;
      if differs_from event_type checkout_completed then
        type_text <- lift (ToString event_type) ;;
        sendResponse (ignored_response ("Event type " ++ type_text ++ " not processed"))
      else
        event_id <- lift (get stripeEvent "id") ;;
        id_text <- lift (ToString event_id) ;;
        console_log [LStr ("Processing event: " ++ id_text)] ;;
        result <- process hubspotClient stripeEvent customerEmail ;;
        lift (get result "action") ;;  (* [result.action] throws on a nullish [result] *)
        sendResponse (success_response result event_id) ;;
        ret JUndefined.

(** [exports.main]: the [try] block and the [catch] at the boundary. *)
Definition main_with
    (process : Client -> JsVal -> JsVal -> M S JsVal)
    (context : JsVal) : M S JsVal :=
  console_log [LStr "BWC Join Date Mapping Started"] ;;
  try_catch
    (main_try process context)
    (fun error =>
       console_error [LStr ("Function error: " ++ message error)] ;;
       sendResponse (error_response (message error)) ;;
       ret JUndefined).

Definition main (context : JsVal) : M S JsVal :=
  main_with processJoinDateMapping context.

Definition connectivity_test : Call :=
  GetAllProperties (JStr "contacts") (JBool false).

(** The world once the opening console line is out. *)
Definition started (w : World S) : World S :=
  mkWorld (crm_state w) (trace w ++ [ELog Info [LStr "BWC Join Date Mapping Started"]]).

(** The [type] the handler compares with the sentinel. *)
Definition event_type (context : JsVal) : Result JsVal :=
  rbind (rbind (get context "body") parse_event) (fun stripeEvent =>
  get stripeEvent "type").

(** The event carries no customer email the handler accepts: the path to
    it is broken, or the value is falsy. *)
Definition lacks_email (context : JsVal) : Prop :=
  match read_customer_email context with
  | Ok email => truthy email = false
  | Throw _ => True
  end.

End Handler.

(** ** Observing a trace *)

Definition calls_of (events : list Event) : list Call :=
  flat_map (fun e => match e with ECall _ call => [call] | _ => [] end) events.

Definition responses_of (events : list Event) : list JsVal :=
  flat_map (fun e => match e with EResponse r => [r] | _ => [] end) events.

Definition is_update (call : Call) : bool :=
  match call with Update _ _ => true | _ => false end.

(** The number of mutations among the calls of a trace. *)
Definition updates_in (events : list Event) : nat :=
  List.length (filter is_update (calls_of events)).

Definition status_code (response : JsVal) : JsVal := prop response "statusCode".
Definition status (response : JsVal) : JsVal := prop (prop response "body") "status".

(** What a response says on the wire: its code, its status and its
    message. *)
Definition answers (response : JsVal) (code : Z) (kind text : string) : Prop :=
  status_code response = JNum code /\
  status response = JStr kind /\
  prop (prop response "body") "message" = JStr text.

(** [response.body.data.k] *)
Definition data_of (response : JsVal) (k : string) : JsVal :=
  prop (prop (prop response "body") "data") k.

(** [results.length > 0 ? results[0] : null] on a list. *)
Definition first_or_null (records : list JsVal) : JsVal :=
  match records with
  | [] => JNull
  | record :: _ => record
  end.

(** ** The calendar, for stating what a date text means

    A civil date of the proleptic Gregorian calendar and the number of its
    day, counting from 1970-01-01. *)

Module Civil.

Definition leap (y : Z) : bool :=
  (y mod 4 =? 0) && (negb (y mod 100 =? 0) || (y mod 400 =? 0)).

Definition days_in_month (y m : Z) : Z :=
  match m with
  | 2 => if leap y then 29 else 28
  | 4 | 6 | 9 | 11 => 30
  | _ => 31
  end.

Definition valid (y m d : Z) : Prop :=
  1 <= m <= 12 /\ 1 <= d <= days_in_month y m.

Definition days_before_month (y m : Z) : Z :=
  match m with
  | 1 => 0
  | 2 => 31
  | 3 => 59
  | 4 => 90
  | 5 => 120
  | 6 => 151
  | 7 => 181
  | 8 => 212
  | 9 => 243
  | 10 => 273
  | 11 => 304
  | _ => 334
  end + (if leap y && (2 <? m) then 1 else 0).

(** Days from 1970-01-01 to the first of January of year [y]: 365 a year
    and one more for each leap year in between. *)
Definition days_before_year (y : Z) : Z :=
  365 * (y - 1970) + ((y - 1) / 4 - (y - 1) / 100 + (y - 1) / 400 - 477).

Definition day_number (y m d : Z) : Z :=
  days_before_year y + days_before_month y m + (d - 1).

(** The text YYYY-MM-DD. *)
Definition text (y m d : Z) : string :=
  JsDate.digits 4 y ++ "-" ++ JsDate.digits 2 m ++ "-" ++ JsDate.digits 2 d.

Definition is_digit (c : ascii) : bool :=
  let n := nat_of_ascii c in (48 <=? n)%nat && (n <=? 57)%nat.

(** Ten characters: four digits, a dash, two digits, a dash, two digits. *)
Definition yyyy_mm_dd (s : string) : bool :=
  match s with
  | String y1 (String y2 (String y3 (String y4 (String "-"
      (String m1 (String m2 (String "-" (String d1 (String d2 EmptyString))))))))) =>
      is_digit y1 && is_digit y2 && is_digit y3 && is_digit y4 &&
      is_digit m1 && is_digit m2 && is_digit d1 && is_digit d2
  | _ => false
  end.

(** The civil date of the UTC day an instant of [t] seconds falls on. *)
Definition on_utc_day (t y m d : Z) : Prop :=
  valid y m d /\ 86400 * day_number y m d <= t < 86400 * (day_number y m d + 1).

End Civil.

(** ** A CRM to run the handler against

    Modelled from the spec: the CRM's contact storage, an external
    collaborator of which the repository holds no code.  A contact is
    identified by an opaque [id] and holds a [join_date] that is absent
    ([null]) or a date text; a search matches the email exactly and returns
    at most one record with the [join_date] property; an update patches the
    contact with the given id.  [wrapped] chooses which of the two response
    shapes the client library hands back. *)

Module MemCrm.

Record Contact : Type := mkContact {
  contact_id : string;
  contact_email : string;
  join_date : JsVal
}.

Record Store : Type := mkStore {
  contacts : list Contact;
  wrapped : bool
}.

Definition record_of (c : Contact) : JsVal :=
  JObj [("id", JStr (contact_id c));
        ("properties", JObj [("join_date", join_date c)])].

Definition find_by_email (email : string) (cs : list Contact) : option Contact :=
  find (fun c => (contact_email c =? email)%string) cs.

Definition find_by_id (id : string) (cs : list Contact) : option Contact :=
  find (fun c => (contact_id c =? id)%string) cs.

Fixpoint set_join_date (id : string) (value : JsVal) (cs : list Contact) : list Contact :=
  match cs with
  | [] => []
  | c :: rest =>
      if (contact_id c =? id)%string
      then mkContact (contact_id c) (contact_email c) value :: rest
      else c :: set_join_date id value rest
  end.

(** The [value] of the one filter of a search request. *)
Definition requested_email (request : JsVal) : JsVal :=
  prop (js_first (prop (js_first (prop request "filterGroups")) "filters")) "value".

Definition shape (st : Store) (page : JsVal) : JsVal :=
  if wrapped st then JObj [("body", page)] else page.

Definition page_of (found : list JsVal) : JsVal :=
  JObj [("total", JNum (Z.of_nat (List.length found))); ("results", JArr found)].

Definition respond (client : Client) (call : Call) (st : Store) : Result JsVal * Store :=
  match call with
  | GetAllProperties _ _ => (Ok (shape st (JObj [("results", JArr [])])), st)
  | DoSearch request =>
      match requested_email request with
      | JStr email =>
          match find_by_email email (contacts st) with
          | Some c => (Ok (shape st (page_of [record_of c])), st)
          | None => (Ok (shape st (page_of [])), st)
          end
      | _ => (Throw (mkError "HTTP-Code: 400"), st)
      end
  | Update (JStr id) patch =>
      match find_by_id id (contacts st) with
      | Some c =>
          let value := prop (prop patch "properties") "join_date" in
          (Ok (shape st (record_of (mkContact (contact_id c) (contact_email c) value))),
           mkStore (set_join_date id value (contacts st)) (wrapped st))
      | None => (Throw (mkError "HTTP-Code: 404"), st)
      end
  | Update _ _ => (Throw (mkError "HTTP-Code: 404"), st)
  end.

#[global] Instance crm : Crm Store := {| crm_call := respond |}.

(** The [join_date] the store holds for the contact an email resolves to. *)
Definition stored_join_date (email : string) (st : Store) : option JsVal :=
  option_map join_date (find_by_email email (contacts st)).

End MemCrm.

(** Two more CRMs without a state of their own: one answers every call
    with the same value, one rejects every call. *)
Definition answering (answer : JsVal) : Crm unit :=
  {| crm_call := fun _ _ s => (Ok answer, s) |}.

Definition rejecting (error : JsError) : Crm unit :=
  {| crm_call := fun _ _ s => (Throw error, s) |}.

(** A platform for running the handler on concrete inputs: numbers print in
    decimal, a text converts when it is a plain decimal integer (the empty
    text is 0), and no text body is ever handed to the JSON parser. *)
#[global] Instance plainPlatform : Platform := {|
  StringToNumber := fun s =>
    if (s =? "")%string then Some 0
    else option_map Z.of_int (DecimalString.NilZero.int_of_string s);
  NumberToString := fun z => DecimalString.NilZero.string_of_int (Z.to_int z);
  JSON_parse := fun _ => Throw (mkError "Unexpected token in JSON")
|}.

(** *** Concrete inputs *)

Module Sample.

Definition token : JsVal := JStr "pat-na1-token".
Definition client : Client := mkClient token.

Definition event (type email : JsVal) (created : Z) : JsVal :=
  JObj [("id", JStr "evt_1");
        ("type", type);
        ("created", JNum created);
        ("data", JObj [("object", JObj [("customer_details",
                                          JObj [("email", email)])])])].

Definition context (body : JsVal) : JsVal :=
  JObj [("secrets", JObj [("joinDateKey", token)]); ("body", body)].

Definition alice_new : MemCrm.Contact :=
  MemCrm.mkContact "104951" "a@example.com" JNull.

Definition alice_joined : MemCrm.Contact :=
  MemCrm.mkContact "104951" "a@example.com" (JStr "2025-07-19").

Definition store (c : MemCrm.Contact) (wrapped : bool) : MemCrm.Store :=
  MemCrm.mkStore [MemCrm.mkContact "7" "b@example.com" JNull; c] wrapped.

Definition start (st : MemCrm.Store) : World MemCrm.Store := mkWorld st [].

Definition alice : JsVal := JStr "a@example.com".

(** An [invoice.paid] event: its object has no [customer_details]. *)
Definition invoice_paid : JsVal :=
  JObj [("id", JStr "evt_2");
        ("type", JStr "invoice.paid");
        ("created", JNum 1752979200);
        ("data", JObj [("object", JObj [("customer_email", alice)])])].

Definition record (id date : string) : JsVal :=
  JObj [("id", JStr id); ("properties", JObj [("join_date", JStr date)])].

(** A search response that carries a list at the top and one under
    [body]. *)
Definition both_shapes : JsVal :=
  JObj [("results", JArr [record "1" "2025-01-01"]);
        ("body", JObj [("results", JArr [record "2" "2025-02-02"])])].

End Sample.

(** Whose client made the calls of a trace. *)
Definition made_by (client : Client) (events : list Event) : Prop :=
  Forall (fun e => match e with ECall c _ => c = client | _ => True end) events.

(** The trace when the handler hands over to processJoinDateMapping. *)
Definition processing_started {S} (w : World S) (token email : JsVal) (id_text : string)
    : list Event :=
  (trace w ++
   [ELog Info [LStr "BWC Join Date Mapping Started"];
    ELog Info [LStr "Testing HubSpot API connectivity..."];
    ECall (mkClient token) (GetAllProperties (JStr "contacts") (JBool false));
    ELog Info [LStr "HubSpot API connectivity confirmed"];
    ELog Info [LStr "Processing for customer email:"; LVal email];
    ELog Info [LStr ("Processing event: " ++ id_text)]])%list.

(** A CRM that answers every read with the same value and rejects every
    update. *)
Definition read_only (answer : JsVal) (error : JsError) : Crm unit :=
  {| crm_call := fun _ call s =>
       match call with
       | Update _ _ => (Throw error, s)
       | _ => (Ok answer, s)
       end |}.

Module MoreSamples.

(** A checkout event that carries no [created]. *)
Definition undated_event : JsVal :=
  JObj [("id", JStr "evt_3");
        ("type", JStr checkout_completed);
        ("data", JObj [("object", JObj [("customer_details",
                                          JObj [("email", Sample.alice)])])])].

(** A record without [properties], and one whose [join_date] is unset. *)
Definition bare_record : JsVal := JObj [("id", JStr "9")].

Definition unset_record : JsVal :=
  JObj [("id", JStr "9"); ("properties", JObj [("join_date", JNull)])].

Definition page (records : list JsVal) : JsVal := JObj [("results", JArr records)].

(** A context without the secret, and one whose body is still text. *)
Definition keyless_context : JsVal :=
  JObj [("secrets", JObj []); ("body", Sample.invoice_paid)].

Definition text_context : JsVal :=
  JObj [("secrets", JObj [("joinDateKey", Sample.token)]); ("body", JStr "{}")].

Definition checkout : JsVal :=
  Sample.event (JStr checkout_completed) Sample.alice 1752979200.

End MoreSamples.

(** * Properties *)

(** ** The calendar *)

Ltac euclid := Z.to_euclidean_division_equations; lia.

Ltac month_cases m :=
  let Hc := fresh "Hc" in
  assert (Hc : m = 1 \/ m = 2 \/ m = 3 \/ m = 4 \/ m = 5 \/ m = 6 \/ m = 7 \/ m = 8 \/
               m = 9 \/ m = 10 \/ m = 11 \/ m = 12) by lia;
  repeat (destruct Hc as [Hc | Hc]; [subst m |]); [.. | subst m].

(** ECMAScript's day count of a year is the calendar's. *)
Lemma DayFromYear_civil y : JsDate.DayFromYear y = Civil.days_before_year y.
Proof. unfold JsDate.DayFromYear, Civil.days_before_year. euclid. Qed.

Lemma DaysInYear_leap y : JsDate.DaysInYear y = if Civil.leap y then 366 else 365.
Proof.
  unfold JsDate.DaysInYear, Civil.leap.
  destruct (y mod 4 =? 0), (y mod 100 =? 0), (y mod 400 =? 0); reflexivity.
Qed.

(** A year is 366 days long when it is a leap year and 365 otherwise. *)
Lemma leap_cases y :
  (Civil.leap y = true /\ Civil.days_before_year (y + 1) = Civil.days_before_year y + 366) \/
  (Civil.leap y = false /\ Civil.days_before_year (y + 1) = Civil.days_before_year y + 365).
Proof.
  unfold Civil.leap, Civil.days_before_year.
  destruct (Z.eqb_spec (y mod 4) 0), (Z.eqb_spec (y mod 100) 0), (Z.eqb_spec (y mod 400) 0);
    cbn [negb andb orb];
    solve [ left; split; [reflexivity | euclid]
          | right; split; [reflexivity | euclid]
          | exfalso; euclid ].
Qed.

(** [YearFromTime] is the year ECMAScript asks for: the one whose start is
    the latest at or before the instant. *)
Lemma YearFromTime_spec t :
  JsDate.TimeFromYear (JsDate.YearFromTime t) <= t
    < JsDate.TimeFromYear (JsDate.YearFromTime t + 1).
Proof.
  unfold JsDate.YearFromTime, JsDate.TimeFromYear, JsDate.Day, JsDate.DayFromYear,
    JsDate.msPerDay.
  repeat match goal with |- context [?a <=? ?b] => destruct (Z.leb_spec a b) end;
  euclid.
Qed.

(** Year, month and day of a time value form the civil date of its day. *)
Lemma civil_of_time t :
  let y := JsDate.YearFromTime t in
  let m := JsDate.MonthFromTime t + 1 in
  let d := JsDate.DateFromTime t in
  Civil.valid y m d /\ Civil.day_number y m d = JsDate.Day t.
Proof.
  intros y m d.
  pose proof (YearFromTime_spec t) as Hy.
  unfold JsDate.TimeFromYear in Hy. rewrite !DayFromYear_civil in Hy.
  assert (Hd : Civil.days_before_year y <= JsDate.Day t < Civil.days_before_year (y + 1)).
  { unfold JsDate.Day, JsDate.msPerDay in *. fold y in Hy. euclid. }
  clear Hy.
  subst m d.
  unfold Civil.valid, Civil.day_number, Civil.days_in_month, Civil.days_before_month,
    JsDate.DateFromTime, JsDate.MonthFromTime, JsDate.InLeapYear, JsDate.DayWithinYear.
  rewrite DaysInYear_leap, DayFromYear_civil. fold y.
  set (dwy := JsDate.Day t - Civil.days_before_year y).
  destruct (leap_cases y) as [[Hl Hs] | [Hl Hs]]; rewrite Hl; cbn [Z.eqb Pos.eqb andb];
    repeat match goal with
           | |- context [?a <? ?b] =>
               destruct (Z.ltb_spec a b); cbn [andb Z.add Z.eqb Pos.add Pos.succ]
           end;
    cbn; lia.
Qed.

Lemma month_span y m d :
  1 <= m <= 12 -> 1 <= d <= Civil.days_in_month y m ->
  0 <= Civil.days_before_month y m + (d - 1)
    < Civil.days_before_year (y + 1) - Civil.days_before_year y.
Proof.
  intros Hm Hd.
  unfold Civil.days_before_month, Civil.days_in_month in *.
  destruct (leap_cases y) as [[Hl Hs] | [Hl Hs]]; rewrite Hl in *; rewrite Hs;
    month_cases m; cbn -[Z.add Z.sub] in *; lia.
Qed.

Lemma days_before_year_mono a b :
  a < b -> Civil.days_before_year (a + 1) <= Civil.days_before_year b.
Proof. intros Hab. unfold Civil.days_before_year. euclid. Qed.

(** A day has one civil date. *)
Lemma civil_unique y m d y' m' d' :
  Civil.valid y m d -> Civil.valid y' m' d' ->
  Civil.day_number y m d = Civil.day_number y' m' d' ->
  y = y' /\ m = m' /\ d = d'.
Proof.
  unfold Civil.valid, Civil.day_number.
  intros [Hm Hd] [Hm' Hd'] He.
  pose proof (month_span y m d Hm Hd) as B.
  pose proof (month_span y' m' d' Hm' Hd') as B'.
  assert (y = y').
  { destruct (Z.lt_total y y') as [Hlt | [Heq | Hgt]]; [| exact Heq |].
    - pose proof (days_before_year_mono _ _ Hlt). lia.
    - pose proof (days_before_year_mono _ _ Hgt). lia. }
  subst y'. split; [reflexivity |].
  assert (He' : Civil.days_before_month y m + d = Civil.days_before_month y m' + d') by lia.
  clear He B B'.
  unfold Civil.days_before_month, Civil.days_in_month in *.
  destruct (Civil.leap y); month_cases m; month_cases m';
    cbn -[Z.add Z.sub] in *; lia.
Qed.

(** ** Date texts *)

Lemma digit_cases x :
  let c := JsDate.digit (x mod 10) in
  Civil.is_digit c = true /\ Ascii.eqb c "T" = false.
Proof.
  assert (Hr : 0 <= x mod 10 < 10) by (apply Z.mod_pos_bound; lia).
  set (r := x mod 10) in *.
  assert (Hc : r = 0 \/ r = 1 \/ r = 2 \/ r = 3 \/ r = 4 \/ r = 5 \/ r = 6 \/ r = 7 \/
               r = 8 \/ r = 9) by lia.
  repeat (destruct Hc as [Hc | Hc]; [rewrite Hc; split; reflexivity |]).
  rewrite Hc; split; reflexivity.
Qed.

Lemma year_in_range t :
  -62167219200 <= t <= 253402300799 ->
  0 <= JsDate.YearFromTime (t * 1000) <= 9999.
Proof.
  intros Ht. pose proof (YearFromTime_spec (t * 1000)) as Hy.
  set (y := JsDate.YearFromTime (t * 1000)) in *.
  unfold JsDate.TimeFromYear, JsDate.DayFromYear, JsDate.msPerDay in Hy.
  euclid.
Qed.

Lemma text_form y m d : Civil.yyyy_mm_dd (Civil.text y m d) = true.
Proof.
  unfold Civil.text. cbn [JsDate.digits String.append Civil.yyyy_mm_dd].
  repeat match goal with
         | |- context [Civil.is_digit (JsDate.digit (?x mod 10))] =>
             rewrite (proj1 (digit_cases x))
         end.
  reflexivity.
Qed.

Lemma first_piece_date y m d rest :
  first_piece (split_on "T" (Civil.text y m d ++ String "T" rest)) = JStr (Civil.text y m d).
Proof.
  unfold Civil.text. cbn [JsDate.digits String.append split_on].
  repeat match goal with
         | |- context [Ascii.eqb (JsDate.digit (?x mod 10)) "T"] =>
             rewrite (proj2 (digit_cases x))
         end.
  cbn. destruct (split_on "T" rest); reflexivity.
Qed.

Lemma first_piece_nonempty sep c rest :
  Ascii.eqb c sep = false ->
  exists p, first_piece (split_on sep (String c rest)) = JStr (String c p).
Proof.
  intros Hc. cbn [split_on]. rewrite Hc.
  destruct (split_on sep rest) as [| p ps]; eexists; reflexivity.
Qed.

Lemma year_text_head y :
  exists c rest, JsDate.year_text y = String c rest /\ Ascii.eqb c "T" = false.
Proof.
  unfold JsDate.year_text.
  destruct ((0 <=? y) && (y <=? 9999)).
  - cbn [JsDate.digits String.append]. eexists. eexists. split; [reflexivity |].
    apply digit_cases.
  - destruct (0 <=? y); cbn [String.append]; eexists; eexists; split; reflexivity.
Qed.

(** ** formatJoinDate *)

Section FormatJoinDateFacts.
Context {platform : Platform}.

Lemma formatJoinDate_seconds t :
  -62167219200 <= t <= 253402300799 ->
  formatJoinDate (JNum t) =
    Ok (JStr (Civil.text (JsDate.YearFromTime (t * 1000))
                         (JsDate.MonthFromTime (t * 1000) + 1)
                         (JsDate.DateFromTime (t * 1000)))).
Proof.
  intros Ht. pose proof (year_in_range t Ht) as Hy.
  unfold formatJoinDate, times_1000, ToNumber, rbind, rcatch, option_map,
    JsDate.new_Date, JsDate.toISOString, JsDate.time_value.
  replace (Z.abs (t * 1000) <=? JsDate.maxTime) with true
    by (symmetry; apply Z.leb_le; unfold JsDate.maxTime; lia).
  unfold JsDate.year_text.
  replace ((0 <=? JsDate.YearFromTime (t * 1000)) &&
           (JsDate.YearFromTime (t * 1000) <=? 9999))
    with true by (symmetry; apply andb_true_iff; split; apply Z.leb_le; lia).
  match goal with
  | |- context [split_on "T" ?s] =>
      replace s with
        (Civil.text (JsDate.YearFromTime (t * 1000))
           (JsDate.MonthFromTime (t * 1000) + 1)
           (JsDate.DateFromTime (t * 1000)) ++
         String "T" (JsDate.digits 2 (JsDate.HourFromTime (t * 1000)) ++ ":" ++
                     JsDate.digits 2 (JsDate.MinFromTime (t * 1000)) ++ ":" ++
                     JsDate.digits 2 (JsDate.SecFromTime (t * 1000)) ++ "." ++
                     JsDate.digits 3 (JsDate.msFromTime (t * 1000)) ++ "Z"))
  end.
  - rewrite first_piece_date. reflexivity.
  - unfold Civil.text. cbn [JsDate.digits String.append]. reflexivity.
Qed.

(** Every timestamp [Date] accepts yields a text, and never the empty
    one. *)
Lemma formatJoinDate_text t :
  -8640000000000 <= t <= 8640000000000 ->
  exists date, formatJoinDate (JNum t) = Ok (JStr date) /\ date <> "".
Proof.
  intros Ht.
  unfold formatJoinDate, times_1000, ToNumber, rbind, rcatch, option_map,
    JsDate.new_Date, JsDate.toISOString, JsDate.time_value.
  replace (Z.abs (t * 1000) <=? JsDate.maxTime) with true
    by (symmetry; apply Z.leb_le; unfold JsDate.maxTime; lia).
  destruct (year_text_head (JsDate.YearFromTime (t * 1000))) as (c & rest & Hy & Hc).
  rewrite Hy. cbn [String.append].
  match goal with
  | |- context [split_on "T" (String c ?s)] =>
      destruct (first_piece_nonempty "T" c s Hc) as (p & Hp); rewrite Hp
  end.
  eexists. split; [reflexivity | discriminate].
Qed.

(** C4 (amended): for every integer timestamp of the years 0000 to 9999
    (from -62167219200 to 253402300799 seconds), formatJoinDate returns
    the text YYYY-MM-DD of the civil date of the UTC day the instant falls
    on; timestamp 1752979200 yields 2025-07-20. *)
Theorem formatJoinDate_utc_date :
  (forall t, -62167219200 <= t <= 253402300799 ->
     exists y m d,
       formatJoinDate (JNum t) = Ok (JStr (Civil.text y m d)) /\
       0 <= y <= 9999 /\
       Civil.on_utc_day t y m d /\
       Civil.yyyy_mm_dd (Civil.text y m d) = true) /\
  formatJoinDate (JNum 1752979200) = Ok (JStr "2025-07-20").
Proof.
  split; [| reflexivity].
  intros t Ht.
  exists (JsDate.YearFromTime (t * 1000)),
         (JsDate.MonthFromTime (t * 1000) + 1),
         (JsDate.DateFromTime (t * 1000)).
  split; [apply formatJoinDate_seconds; assumption |].
  split; [apply year_in_range; assumption |].
  split; [| apply text_form].
  destruct (civil_of_time (t * 1000)) as [Hv Hn].
  split; [exact Hv |]. rewrite Hn. unfold JsDate.Day, JsDate.msPerDay.
  euclid.
Qed.

End FormatJoinDateFacts.

Lemma formatJoinDate_utc_date_witness :
  -62167219200 <= 951868799 <= 253402300799 /\
  exists y m d,
    formatJoinDate (JNum 951868799) = Ok (JStr (Civil.text y m d)) /\
    0 <= y <= 9999 /\
    Civil.on_utc_day 951868799 y m d /\
    Civil.yyyy_mm_dd (Civil.text y m d) = true.
Proof.
  split; [lia |].
  apply (proj1 formatJoinDate_utc_date 951868799). lia.
Defined.

(** The first second of the year 10000 is a timestamp [Date] accepts, and
    its text is not of the form YYYY-MM-DD. *)
Lemma formatJoinDate_year_10000 :
  formatJoinDate (JNum 253402300800) = Ok (JStr "+010000-01-01") /\
  Civil.yyyy_mm_dd "+010000-01-01" = false.
Proof. split; reflexivity. Qed.

Example formatJoinDate_leap_day :
  formatJoinDate (JNum 951868799) = Ok (JStr "2000-02-29").
Proof. reflexivity. Qed.

Example formatJoinDate_out_of_range :
  formatJoinDate (JNum 8640000000001)
    = Throw (mkError "Date formatting failed: Invalid time value").
Proof. reflexivity. Qed.

(** ** Traces *)

Lemma calls_of_app a b : calls_of (a ++ b) = (calls_of a ++ calls_of b)%list.
Proof. unfold calls_of. apply flat_map_app. Qed.

Lemma responses_of_app a b :
  responses_of (a ++ b) = (responses_of a ++ responses_of b)%list.
Proof. unfold responses_of. apply flat_map_app. Qed.

Lemma updates_in_app a b : updates_in (a ++ b) = (updates_in a + updates_in b)%nat.
Proof. unfold updates_in. rewrite calls_of_app, filter_app, length_app. reflexivity. Qed.

(** Running a computation: unfold the monad, then follow the scrutinee of
    the innermost [match]. *)
Ltac run_monad :=
  unfold try_catch, bind, lift, throw, ret, console_log, console_error,
    sendResponse, emit, await_call in *;
  cbn [fst snd trace crm_state] in *.

Ltac run_on := cbn [negb fst snd trace crm_state rbind].

Ltac split_scrutinee :=
  match goal with
  | |- context [match ?x with _ => _ end] =>
      lazymatch x with
      | context [match _ with _ => _ end] => fail
      | _ => destruct x eqn:?
      end
  end.

(** The trace at the end is the trace at the start and what was added. *)
Ltac close_trace :=
  cbn [fst snd trace crm_state];
  repeat match goal with H : trace ?w = _ |- context [trace ?w] => rewrite H end;
  rewrite <- ?app_assoc;
  eexists; split; [first [reflexivity | symmetry; apply app_nil_r] | ].

Lemma truthy_prop_not_nullish v k : truthy (prop v k) = true -> nullish v = false.
Proof. destruct v; cbn; congruence. Qed.

Lemma truthy_text email : email <> "" -> truthy (JStr email) = true.
Proof.
  intros Hne. cbn. destruct (String.eqb_spec email ""); [contradiction | reflexivity].
Qed.

Lemma differs_from_false v s : differs_from v s = false -> v = JStr s.
Proof.
  destruct v; cbn; try discriminate.
  intros Heq. apply negb_false_iff in Heq. apply String.eqb_eq in Heq. congruence.
Qed.

(** ** findContactByEmail *)

Section Search.
Context {platform : Platform} {S : Type} {hubspot : Crm S}.

Lemma select_results_flat resp records :
  get_opt resp "results" = JArr records -> select_results resp = JArr records.
Proof. intros Hflat. unfold select_results. rewrite Hflat. reflexivity. Qed.

Lemma select_results_wrapped resp records :
  truthy (get_opt resp "results") = false ->
  get_opt (get_opt resp "body") "results" = JArr records ->
  select_results resp = JArr records.
Proof.
  intros Hnone Hwrapped. unfold select_results, js_or.
  rewrite Hnone, Hwrapped. reflexivity.
Qed.

Lemma select_results_neither resp :
  truthy (get_opt resp "results") = false ->
  truthy (get_opt (get_opt resp "body") "results") = false ->
  select_results resp = JArr [].
Proof.
  intros Hnone Hnone'. unfold select_results, js_or.
  rewrite Hnone, Hnone'. reflexivity.
Qed.

(** One search, answered: what comes back and what was done. *)
Lemma findContactByEmail_answer client email text w resp s' count some :
  ToString email = Ok text ->
  crm_call client (DoSearch (search_request email)) (crm_state w) = (Ok resp, s') ->
  ToString (js_length (select_results resp)) = Ok count ->
  js_gt_zero (js_length (select_results resp)) = Ok some ->
  exists logs,
    findContactByEmail client email w =
      (Ok (if some then js_first (select_results resp) else JNull),
       mkWorld s' (trace w ++ logs)) /\
    calls_of logs = [DoSearch (search_request email)] /\
    responses_of logs = [].
Proof.
  intros Htext Hcall Hcount Hsome.
  unfold findContactByEmail. run_monad.
  rewrite Htext, Hcall, Hcount, Hsome.
  destruct (truthy resp && truthy (prop resp "body")); cbn [trace crm_state];
    rewrite <- !app_assoc; eexists; (split; [reflexivity |]); split; reflexivity.
Qed.

Lemma findContactByEmail_list client email text w resp s' records :
  ToString email = Ok text ->
  crm_call client (DoSearch (search_request email)) (crm_state w) = (Ok resp, s') ->
  select_results resp = JArr records ->
  exists logs,
    findContactByEmail client email w =
      (Ok (first_or_null records), mkWorld s' (trace w ++ logs)) /\
    calls_of logs = [DoSearch (search_request email)] /\
    responses_of logs = [].
Proof.
  intros Htext Hcall Hsel.
  destruct (findContactByEmail_answer client email text w resp s'
              (NumberToString (Z.of_nat (List.length records)))
              (0 <? Z.of_nat (List.length records)) Htext Hcall)
    as (logs & Hrun & Hlogs); try (rewrite Hsel; reflexivity).
  exists logs. split; [| exact Hlogs].
  rewrite Hrun, Hsel. destruct records; reflexivity.
Qed.

(** A search adds no mutation and no response, however it ends. *)
Lemma findContactByEmail_footprint client email w :
  exists delta,
    trace (snd (findContactByEmail client email w)) = (trace w ++ delta)%list /\
    updates_in delta = 0%nat /\ responses_of delta = [].
Proof.
  unfold findContactByEmail. run_monad.
  repeat split_scrutinee; close_trace; split; reflexivity.
Qed.

(** C7: whether the search response carries its result list directly
    ([results]) or one level down under [body], findContactByEmail
    returns the same thing: the first record of the list when there is
    one, and [null] when the list is empty. *)
Theorem findContactByEmail_shape_tolerance client email w resp s' records :
  crm_call client (DoSearch (search_request (JStr email))) (crm_state w) = (Ok resp, s') ->
  get_opt resp "results" = JArr records \/
  (truthy (get_opt resp "results") = false /\
   get_opt (get_opt resp "body") "results" = JArr records) ->
  fst (findContactByEmail client (JStr email) w) =
    Ok (match records with
        | [] => JNull
        | record :: _ => record
        end).
Proof.
  intros Hcall Hshape.
  assert (Hsel : select_results resp = JArr records).
  { destruct Hshape as [Hflat | [Hnone Hwrapped]].
    - apply select_results_flat; assumption.
    - apply select_results_wrapped; assumption. }
  destruct (findContactByEmail_list client (JStr email) email w resp s' records
              eq_refl Hcall Hsel) as (logs & Hrun & _).
  rewrite Hrun. reflexivity.
Qed.

(** C10: when the search response carries a list at the top and another
    under [body], findContactByEmail uses the one at the top; when the
    list it selects is empty, or the response has neither shape, it
    returns [null] and raises nothing. *)
Theorem findContactByEmail_shape_precedence client email w resp s' :
  crm_call client (DoSearch (search_request (JStr email))) (crm_state w) = (Ok resp, s') ->
  (forall top nested,
     get_opt resp "results" = JArr top ->
     get_opt (get_opt resp "body") "results" = JArr nested ->
     fst (findContactByEmail client (JStr email) w) = Ok (first_or_null top)) /\
  (select_results resp = JArr [] ->
     fst (findContactByEmail client (JStr email) w) = Ok JNull) /\
  (truthy (get_opt resp "results") = false ->
   truthy (get_opt (get_opt resp "body") "results") = false ->
     fst (findContactByEmail client (JStr email) w) = Ok JNull).
Proof.
  intros Hcall.
  assert (Hlist : forall records, select_results resp = JArr records ->
            fst (findContactByEmail client (JStr email) w) = Ok (first_or_null records)).
  { intros records Hsel.
    destruct (findContactByEmail_list client (JStr email) email w resp s' records
                eq_refl Hcall Hsel) as (logs & Hrun & _).
    rewrite Hrun. reflexivity. }
  split; [| split].
  - intros top nested Htop _. apply Hlist, select_results_flat, Htop.
  - intros Hempty. apply (Hlist [] Hempty).
  - intros Hnone Hnone'. apply (Hlist []), select_results_neither; assumption.
Qed.

End Search.

Lemma findContactByEmail_shape_tolerance_witness :
  fst (findContactByEmail Sample.client Sample.alice
         (Sample.start (Sample.store Sample.alice_joined true)))
    = Ok (MemCrm.record_of Sample.alice_joined) /\
  fst (findContactByEmail Sample.client Sample.alice
         (Sample.start (Sample.store Sample.alice_joined false)))
    = Ok (MemCrm.record_of Sample.alice_joined).
Proof.
  split.
  - apply (findContactByEmail_shape_tolerance Sample.client "a@example.com"
             (Sample.start (Sample.store Sample.alice_joined true))
             (MemCrm.shape (Sample.store Sample.alice_joined true)
                (MemCrm.page_of [MemCrm.record_of Sample.alice_joined]))
             (Sample.store Sample.alice_joined true)
             [MemCrm.record_of Sample.alice_joined]).
    + reflexivity.
    + right. split; reflexivity.
  - apply (findContactByEmail_shape_tolerance Sample.client "a@example.com"
             (Sample.start (Sample.store Sample.alice_joined false))
             (MemCrm.shape (Sample.store Sample.alice_joined false)
                (MemCrm.page_of [MemCrm.record_of Sample.alice_joined]))
             (Sample.store Sample.alice_joined false)
             [MemCrm.record_of Sample.alice_joined]).
    + reflexivity.
    + left. reflexivity.
Defined.

Lemma findContactByEmail_shape_precedence_witness :
  fst (findContactByEmail (hubspot := answering Sample.both_shapes)
         Sample.client Sample.alice (mkWorld tt []))
    = Ok (Sample.record "1" "2025-01-01").
Proof.
  apply (proj1 (findContactByEmail_shape_precedence (hubspot := answering Sample.both_shapes)
                  Sample.client "a@example.com" (mkWorld tt [])
                  Sample.both_shapes tt eq_refl)
           [Sample.record "1" "2025-01-01"] [Sample.record "2" "2025-02-02"]);
    reflexivity.
Defined.

(** ** processJoinDateMapping *)

Section Mapping.
Context {platform : Platform} {S : Type} {hubspot : Crm S}.

Ltac run_search :=
  match goal with
  | |- context [findContactByEmail ?c ?e ?w0] =>
      let F := fresh "F" in
      destruct (findContactByEmail_footprint c e w0) as (d0 & F & Fu & Fr);
      destruct (findContactByEmail c e w0) eqn:?; cbn [fst snd] in F
  end.

(** Whatever happens, one run sends no response and mutates at most
    once. *)
Lemma processJoinDateMapping_footprint client stripeEvent customerEmail w :
  exists delta,
    trace (snd (processJoinDateMapping client stripeEvent customerEmail w))
      = (trace w ++ delta)%list /\
    responses_of delta = [] /\ (updates_in delta <= 1)%nat.
Proof.
  unfold processJoinDateMapping. run_monad.
  repeat first [ run_search | split_scrutinee ];
    close_trace; rewrite ?updates_in_app, ?responses_of_app, ?Fu, ?Fr; cbn;
    (split; [reflexivity | lia]).
Qed.

(** C5: every invocation of processJoinDateMapping issues no update call
    or exactly one, on every path, the failing ones included. *)
Theorem processJoinDateMapping_at_most_one_update client stripeEvent customerEmail w :
  exists delta,
    trace (snd (processJoinDateMapping client stripeEvent customerEmail w))
      = (trace w ++ delta)%list /\
    (updates_in delta = 0 \/ updates_in delta = 1)%nat.
Proof.
  unfold processJoinDateMapping. run_monad.
  repeat first [ run_search | split_scrutinee ];
    close_trace; rewrite ?updates_in_app, ?Fu; cbn;
    solve [left; reflexivity | right; reflexivity].
Qed.

(** C1: when the search resolves the email to a contact whose [join_date]
    is set to a non-empty value, processJoinDateMapping returns the
    [skipped] result with the contact's id and the existing value, for
    every timestamp formatJoinDate accepts; and whatever the event holds,
    no update call is issued. *)
Theorem processJoinDateMapping_write_once
    client email w resp s' contact others existing id_text :
  email <> "" ->
  crm_call client (DoSearch (search_request (JStr email))) (crm_state w) = (Ok resp, s') ->
  select_results resp = JArr (contact :: others) ->
  prop (prop contact "properties") "join_date" = existing ->
  truthy existing = true ->
  ToString (prop contact "id") = Ok id_text ->
  (forall stripeEvent created joinDate,
     get stripeEvent "created" = Ok created ->
     formatJoinDate created = Ok joinDate ->
     exists result delta,
       processJoinDateMapping client stripeEvent (JStr email) w =
         (Ok result, mkWorld s' (trace w ++ delta)) /\
       result = skipped_result (prop contact "id") existing /\
       prop result "success" = JBool true /\
       prop result "action" = JStr "skipped" /\
       prop result "contactId" = prop contact "id" /\
       prop result "existingJoinDate" = existing /\
       calls_of delta = [DoSearch (search_request (JStr email))]) /\
  (forall stripeEvent,
     exists delta,
       trace (snd (processJoinDateMapping client stripeEvent (JStr email) w))
         = (trace w ++ delta)%list /\
       updates_in delta = 0%nat).
Proof.
  intros Hemail Hcall Hsel Hexisting Hset Hid.
  pose proof (truthy_text email Hemail) as Htruthy.
  assert (Hcontact : truthy contact = true).
  { destruct contact; cbn in *; subst existing; cbn in Hset; congruence. }
  assert (Hprops : nullish (prop contact "properties") = false).
  { apply truthy_prop_not_nullish with (k := "join_date"). congruence. }
  destruct (findContactByEmail_list client (JStr email) email w resp s'
              (contact :: others) eq_refl Hcall Hsel) as (logs & Hrun & Hcalls & _).
  cbn [first_or_null] in Hrun.
  split.
  - intros stripeEvent created joinDate Hcreated Hdate.
    unfold processJoinDateMapping. run_monad.
    rewrite Htruthy, Hcreated, Hdate. run_on.
    rewrite Hrun, Hcontact. run_on.
    unfold get. rewrite Hprops, Hexisting, Hset, Hid.
    cbn [trace crm_state]. rewrite <- app_assoc.
    eexists. eexists. split; [reflexivity |].
    do 5 (split; [reflexivity |]).
    rewrite calls_of_app, Hcalls. reflexivity.
  - intros stripeEvent.
    unfold processJoinDateMapping. run_monad.
    rewrite Htruthy. run_on.
    destruct (get stripeEvent "created") as [created | e];
      [destruct (formatJoinDate created) as [joinDate | e] |];
      try (close_trace; reflexivity).
    rewrite Hrun, Hcontact. run_on.
    unfold get. rewrite Hprops, Hexisting, Hset, Hid.
    close_trace. unfold updates_in. rewrite calls_of_app, Hcalls. reflexivity.
Qed.

End Mapping.

Lemma processJoinDateMapping_write_once_witness :
  exists result delta,
    processJoinDateMapping Sample.client
        (Sample.event (JStr checkout_completed) Sample.alice 1752979200)
        Sample.alice (Sample.start (Sample.store Sample.alice_joined true))
      = (Ok result, mkWorld (Sample.store Sample.alice_joined true) ([] ++ delta)) /\
    result = skipped_result (JStr "104951") (JStr "2025-07-19") /\
    prop result "success" = JBool true /\
    prop result "action" = JStr "skipped" /\
    prop result "contactId" = JStr "104951" /\
    prop result "existingJoinDate" = JStr "2025-07-19" /\
    calls_of delta = [DoSearch (search_request Sample.alice)].
Proof.
  apply (proj1 (processJoinDateMapping_write_once Sample.client "a@example.com"
                  (Sample.start (Sample.store Sample.alice_joined true))
                  (MemCrm.shape (Sample.store Sample.alice_joined true)
                     (MemCrm.page_of [MemCrm.record_of Sample.alice_joined]))
                  (Sample.store Sample.alice_joined true)
                  (MemCrm.record_of Sample.alice_joined) []
                  (JStr "2025-07-19") "104951"
                  ltac:(discriminate) eq_refl eq_refl eq_refl eq_refl eq_refl)
           (Sample.event (JStr checkout_completed) Sample.alice 1752979200)
           (JNum 1752979200) (JStr "2025-07-20"));
    reflexivity.
Defined.

(** A timestamp [Date] rejects stops the run before the lookup: nothing is
    asked of the CRM, and nothing written. *)
Example write_once_unconvertible_timestamp :
  processJoinDateMapping Sample.client
      (Sample.event (JStr checkout_completed) Sample.alice 8640000000001)
      Sample.alice (Sample.start (Sample.store Sample.alice_joined true))
    = (Throw (mkError "Date formatting failed: Invalid time value"),
       mkWorld (Sample.store Sample.alice_joined true)
         [ELog Error [LStr "Processing failed: Date formatting failed: Invalid time value"]]).
Proof. reflexivity. Qed.

(** ** exports.main *)

Section Boundary.
Context {platform : Platform} {S : Type} {hubspot : Crm S}.

Section AnyProcess.
Variable process : Client -> JsVal -> JsVal -> M S JsVal.
Hypothesis process_quiet :
  forall client stripeEvent customerEmail w,
    exists delta,
      trace (snd (process client stripeEvent customerEmail w))
        = (trace w ++ delta)%list /\
      responses_of delta = [].

Ltac run_process :=
  match goal with
  | |- context [process ?c ?e ?m ?w0] =>
      let F := fresh "F" in
      destruct (process_quiet c e m w0) as (dp & F & Fr);
      destruct (process c e m w0) eqn:?; cbn [fst snd trace crm_state] in F
  end.

(** The [try] block sends nothing when it throws, and one response
    with code 200 when it completes. *)
Lemma main_try_responses context w :
  exists delta,
    trace (snd (main_try process context w)) = (trace w ++ delta)%list /\
    match fst (main_try process context w) with
    | Throw _ => responses_of delta = []
    | Ok _ =>
        exists response,
          responses_of delta = [response] /\
          status_code response = JNum 200 /\
          (status response = JStr "success" \/ status response = JStr "ignored")
    end.
Proof.
  unfold main_try. run_monad.
  repeat (cbn [fst snd]; first [ run_process | split_scrutinee ]);
    cbn [fst snd]; close_trace;
    rewrite ?responses_of_app, ?Fr; cbn [responses_of flat_map app];
    try reflexivity;
    eexists; (split; [reflexivity |]);
    (split; [reflexivity | (left; reflexivity) || (right; reflexivity)]).
Qed.
End AnyProcess.

Lemma processJoinDateMapping_quiet client stripeEvent customerEmail (w : World S) :
  exists delta,
    trace (snd (processJoinDateMapping client stripeEvent customerEmail w))
      = (trace w ++ delta)%list /\
    responses_of delta = [].
Proof.
  destruct (processJoinDateMapping_footprint client stripeEvent customerEmail w)
    as (delta & Htrace & Hquiet & _).
  exists delta. split; assumption.
Qed.

(** C6: every invocation of the handler returns normally and sends exactly
    one response.  When a step of the [try] block fails, that response has
    code 500, status [error] and the error's message; when none fails, it
    has code 200 and status [success] or [ignored]. *)
Theorem main_error_boundary context w :
  exists value delta response,
    fst (main context w) = Ok value /\
    trace (snd (main context w)) = (trace w ++ delta)%list /\
    responses_of delta = [response] /\
    match fst (main_try processJoinDateMapping context (started w)) with
    | Throw error =>
        status_code response = JNum 500 /\
        status response = JStr "error" /\
        prop (prop response "body") "message" = JStr (message error)
    | Ok _ =>
        status_code response = JNum 200 /\
        (status response = JStr "success" \/ status response = JStr "ignored")
    end.
Proof.
  destruct (main_try_responses processJoinDateMapping processJoinDateMapping_quiet
              context (started w)) as (delta & Htrace & Hresp).
  unfold main, main_with. run_monad. fold (started w).
  destruct (main_try processJoinDateMapping context (started w)) as [[value | error] w1];
    cbn [fst snd trace crm_state] in *; unfold started in Htrace;
    cbn [trace] in Htrace; rewrite Htrace; rewrite <- ?app_assoc.
  - destruct Hresp as (response & Hone & Hcode).
    exists value. eexists. exists response.
    split; [reflexivity |]. split; [reflexivity |].
    split; [| exact Hcode].
    rewrite responses_of_app, Hone. reflexivity.
  - eexists. eexists. eexists.
    split; [reflexivity |]. split; [reflexivity |].
    split; [rewrite !responses_of_app, Hresp; reflexivity |].
    repeat split; reflexivity.
Qed.

Ltac sentinel_clash Hne :=
  exfalso; apply Hne; unfold event_type;
  repeat match goal with
         | E : rbind _ _ = Ok _ |- _ => rewrite E; clear E
         | E : get _ "type" = Ok _ |- _ => cbn [rbind]; rewrite E; clear E
         | E : differs_from _ _ = false |- _ => apply differs_from_false in E; rewrite E
         end;
  reflexivity.

(** C2 (amended): for every inbound event whose [type] is not
    'checkout.session.completed', the handler never reaches
    processJoinDateMapping (it runs the same whatever stands in its
    place) and makes no search and no update call: the one CRM call it may
    make is the connectivity test.  When the credential is present, the
    connectivity test succeeds, the event carries a non-empty customer
    email and the type can be rendered into the message, it answers
    [ignored] with code 200. *)
Theorem main_ignores_other_events context w :
  event_type context <> Ok (JStr checkout_completed) ->
  (forall process, main_with process context w = main context w) /\
  (exists delta,
     trace (snd (main context w)) = (trace w ++ delta)%list /\
     (calls_of delta = [] \/ calls_of delta = [connectivity_test])) /\
  (forall token answer s' email type text,
     read_secret context = Ok token -> truthy token = true ->
     crm_call (mkClient token) connectivity_test (crm_state w) = (Ok answer, s') ->
     read_customer_email context = Ok email -> truthy email = true ->
     event_type context = Ok type -> ToString type = Ok text ->
     exists delta,
       main context w = (Ok JUndefined, mkWorld s' (trace w ++ delta)) /\
       responses_of delta = [ignored_response ("Event type " ++ text ++ " not processed")] /\
       calls_of delta = [connectivity_test] /\
       answers (ignored_response ("Event type " ++ text ++ " not processed"))
         200 "ignored" ("Event type " ++ text ++ " not processed")).
Proof.
  intros Hne. split; [| split].
  - intros process. unfold main, main_with, main_try. run_monad.
    repeat (cbn [fst snd]; split_scrutinee); try reflexivity; sentinel_clash Hne.
  - unfold main, main_with, main_try. run_monad.
    repeat (cbn [fst snd]; split_scrutinee);
      try (cbn [fst snd]; close_trace; rewrite ?calls_of_app; cbn;
           solve [left; reflexivity | right; reflexivity]);
      sentinel_clash Hne.
  - intros token answer s' email type text Htoken Htruthy Hcall Hmail Hmailt Htype Htext.
    unfold event_type in Htype.
    destruct (rbind (get context "body") parse_event) as [stripeEvent | e] eqn:Hevent;
      [cbn [rbind] in Htype | discriminate].
    assert (Hdiff : differs_from type checkout_completed = true).
    { destruct (differs_from type checkout_completed) eqn:Hd; [reflexivity |].
      exfalso. apply Hne. unfold event_type. rewrite Hevent. cbn [rbind].
      rewrite Htype. apply differs_from_false in Hd. rewrite Hd. reflexivity. }
    unfold main, main_with, main_try. run_monad. unfold connectivity_test in Hcall.
    rewrite Htoken, Htruthy. run_on. rewrite Hcall. run_on.
    rewrite Hmail, Hmailt. run_on.
    rewrite Hevent, Htype, Hdiff, Htext.
    cbn [fst snd trace crm_state]. rewrite <- !app_assoc.
    eexists. split; [reflexivity |]. repeat split; reflexivity.
Qed.

(** C8 (amended): processJoinDateMapping, given an empty customer email,
    fails with its missing-email error before any external call.  The
    handler, when the credential is present and the connectivity test
    succeeds, answers an event that lacks a non-empty customer email with
    the error response (the missing-email message, or the TypeError's when
    the path to the email is broken) and makes no search and no update
    call: the connectivity test is the one CRM call before the failure. *)
Theorem missing_email_aborts :
  (forall client stripeEvent customerEmail (w : World S),
     truthy customerEmail = false ->
     processJoinDateMapping client stripeEvent customerEmail w =
       (Throw (mkError "No customer email found in checkout session"),
        mkWorld (crm_state w)
          (trace w ++
           [ELog Error
              [LStr "Processing failed: No customer email found in checkout session"]]))) /\
  (forall context (w : World S) token answer s',
     read_secret context = Ok token -> truthy token = true ->
     crm_call (mkClient token) connectivity_test (crm_state w) = (Ok answer, s') ->
     lacks_email context ->
     exists delta,
       main context w = (Ok JUndefined, mkWorld s' (trace w ++ delta)) /\
       calls_of delta = [connectivity_test] /\
       responses_of delta =
         [error_response
            (match read_customer_email context with
             | Ok _ => "No customer email found in webhook data"
             | Throw error => message error
             end)] /\
       answers
         (error_response
            (match read_customer_email context with
             | Ok _ => "No customer email found in webhook data"
             | Throw error => message error
             end))
         500 "error"
         (match read_customer_email context with
          | Ok _ => "No customer email found in webhook data"
          | Throw error => message error
          end)).
Proof.
  split.
  - intros client stripeEvent customerEmail w Hempty.
    unfold processJoinDateMapping. run_monad. rewrite Hempty. reflexivity.
  - intros context w token answer s' Htoken Htruthy Hcall Hlacks.
    unfold lacks_email in Hlacks. unfold connectivity_test in Hcall.
    unfold main, main_with, main_try. run_monad.
    rewrite Htoken, Htruthy. run_on. rewrite Hcall. run_on.
    destruct (read_customer_email context) as [email | error]; run_on;
      [rewrite Hlacks; run_on |];
      rewrite <- !app_assoc; eexists; (split; [reflexivity |]); repeat split; reflexivity.
Qed.

(** C9: with the credential present, the first thing the handler does
    after its opening console line is the connectivity test, a read of the
    contact properties.  If that call is rejected, or if it succeeds and
    the event lacks a non-empty [customer_details.email], the one response
    the handler sends has code 500 and status [error] (with the
    authentication-failure message, the missing-email message, or the
    TypeError's), whatever the event's [type] is, and so also for a type
    that is not the sentinel: the type is examined only after both
    checks. *)
Theorem main_checks_before_type context (w : World S) token :
  read_secret context = Ok token -> truthy token = true ->
  (exists rest,
     trace (snd (main context w)) =
       (trace w ++
        [ELog Info [LStr "BWC Join Date Mapping Started"];
         ELog Info [LStr "Testing HubSpot API connectivity..."];
         ECall (mkClient token) connectivity_test] ++ rest)%list) /\
  (forall error s',
     crm_call (mkClient token) connectivity_test (crm_state w) = (Throw error, s') ->
     exists delta response,
       main context w = (Ok JUndefined, mkWorld s' (trace w ++ delta)) /\
       calls_of delta = [connectivity_test] /\
       responses_of delta = [response] /\
       response = error_response ("HubSpot authentication failed: " ++ message error) /\
       answers response 500 "error" ("HubSpot authentication failed: " ++ message error)) /\
  (forall answer s',
     crm_call (mkClient token) connectivity_test (crm_state w) = (Ok answer, s') ->
     lacks_email context ->
     exists delta response,
       main context w = (Ok JUndefined, mkWorld s' (trace w ++ delta)) /\
       calls_of delta = [connectivity_test] /\
       responses_of delta = [response] /\
       response =
         error_response
           (match read_customer_email context with
            | Ok _ => "No customer email found in webhook data"
            | Throw error => message error
            end) /\
       answers response 500 "error"
         (match read_customer_email context with
          | Ok _ => "No customer email found in webhook data"
          | Throw error => message error
          end)).
Proof.
  intros Htoken Htruthy. split; [| split].
  - unfold main, main_with, main_try. run_monad.
    rewrite Htoken, Htruthy. run_on. unfold connectivity_test.
    repeat first
      [ match goal with
        | |- context [processJoinDateMapping ?c ?e ?m ?w0] =>
            let F := fresh "F" in
            destruct (processJoinDateMapping_quiet c e m w0) as (dp & F & _);
            destruct (processJoinDateMapping c e m w0) eqn:?;
            cbn [fst snd trace crm_state] in F
        end
      | cbn [fst snd]; split_scrutinee ];
      cbn [fst snd trace crm_state];
      repeat match goal with F : trace ?w0 = _ |- context [trace ?w0] => rewrite F end;
      rewrite <- !app_assoc; cbn [app]; eexists; reflexivity.
  - intros error s' Hcall. unfold connectivity_test in Hcall.
    unfold main, main_with, main_try. run_monad.
    rewrite Htoken, Htruthy. run_on. rewrite Hcall. run_on.
    rewrite <- !app_assoc; eexists; eexists; (split; [reflexivity |]);
      (split; [reflexivity |]); (split; [reflexivity |]); repeat split; reflexivity.
  - intros answer s' Hcall Hlacks.
    unfold lacks_email in Hlacks. unfold connectivity_test in Hcall.
    unfold main, main_with, main_try. run_monad.
    rewrite Htoken, Htruthy. run_on. rewrite Hcall. run_on.
    destruct (read_customer_email context) as [email | error]; run_on;
      [rewrite Hlacks; run_on |];
      rewrite <- !app_assoc; eexists; eexists; (split; [reflexivity |]);
      (split; [reflexivity |]); (split; [reflexivity |]); repeat split; reflexivity.
Qed.

End Boundary.

Lemma main_ignores_other_events_witness :
  exists delta,
    main (Sample.context (Sample.event (JStr "invoice.paid") Sample.alice 1752979200))
         (Sample.start (Sample.store Sample.alice_new true))
      = (Ok JUndefined, mkWorld (Sample.store Sample.alice_new true) ([] ++ delta)) /\
    responses_of delta = [ignored_response "Event type invoice.paid not processed"] /\
    calls_of delta = [connectivity_test] /\
    answers (ignored_response "Event type invoice.paid not processed")
      200 "ignored" "Event type invoice.paid not processed".
Proof.
  apply (proj2 (proj2
           (main_ignores_other_events
              (Sample.context (Sample.event (JStr "invoice.paid") Sample.alice 1752979200))
              (Sample.start (Sample.store Sample.alice_new true))
              ltac:(vm_compute; discriminate)))
           Sample.token
           (MemCrm.shape (Sample.store Sample.alice_new true) (JObj [("results", JArr [])]))
           (Sample.store Sample.alice_new true)
           Sample.alice (JStr "invoice.paid") "invoice.paid");
    reflexivity.
Defined.

(** An [invoice.paid] event, which has no [customer_details], is answered
    with an error and not with [ignored]; so is any event while HubSpot
    rejects the connectivity test. *)
Lemma main_not_always_ignored :
  event_type (Sample.context Sample.invoice_paid) = Ok (JStr "invoice.paid") /\
  map (fun r => (status_code r, status r))
    (responses_of
       (trace (snd (main (Sample.context Sample.invoice_paid)
                         (Sample.start (Sample.store Sample.alice_new false))))))
    = [(JNum 500, JStr "error")] /\
  map (fun r => (status_code r, status r))
    (responses_of
       (trace (snd (main (hubspot := rejecting (mkError "HTTP-Code: 503"))
                         (Sample.context
                            (Sample.event (JStr "invoice.paid") Sample.alice 1752979200))
                         (mkWorld tt [])))))
    = [(JNum 500, JStr "error")].
Proof. repeat split; reflexivity. Qed.

Example invoice_paid_error_text :
  responses_of
    (trace (snd (main (Sample.context Sample.invoice_paid)
                      (Sample.start (Sample.store Sample.alice_new false)))))
    = [error_response "Cannot read properties of undefined (reading 'email')"].
Proof. reflexivity. Qed.

Lemma missing_email_aborts_witness :
  exists delta,
    main (Sample.context (Sample.event (JStr checkout_completed) JNull 1752979200))
         (Sample.start (Sample.store Sample.alice_new false))
      = (Ok JUndefined, mkWorld (Sample.store Sample.alice_new false) ([] ++ delta)) /\
    calls_of delta = [connectivity_test] /\
    responses_of delta = [error_response "No customer email found in webhook data"] /\
    answers (error_response "No customer email found in webhook data")
      500 "error" "No customer email found in webhook data".
Proof.
  apply (proj2 missing_email_aborts
           (Sample.context (Sample.event (JStr checkout_completed) JNull 1752979200))
           (Sample.start (Sample.store Sample.alice_new false))
           Sample.token
           (MemCrm.shape (Sample.store Sample.alice_new false) (JObj [("results", JArr [])]))
           (Sample.store Sample.alice_new false));
    reflexivity.
Defined.

(** A checkout event with an empty customer email: the failure comes after
    a CRM call, the connectivity test. *)
Lemma connectivity_test_precedes_missing_email :
  let w := snd (main (Sample.context
                        (Sample.event (JStr checkout_completed) (JStr "") 1752979200))
                     (Sample.start (Sample.store Sample.alice_new false))) in
  trace w
    = [ELog Info [LStr "BWC Join Date Mapping Started"];
       ELog Info [LStr "Testing HubSpot API connectivity..."];
       ECall Sample.client connectivity_test;
       ELog Info [LStr "HubSpot API connectivity confirmed"];
       ELog Info [LStr "Processing for customer email:"; LVal (JStr "")];
       ELog Error [LStr "Function error: No customer email found in webhook data"];
       EResponse (error_response "No customer email found in webhook data")] /\
  calls_of (trace w) <> [].
Proof. split; [reflexivity | discriminate]. Qed.

Lemma main_checks_before_type_witness :
  event_type (Sample.context Sample.invoice_paid) = Ok (JStr "invoice.paid") /\
  exists delta response,
    main (Sample.context Sample.invoice_paid)
         (Sample.start (Sample.store Sample.alice_new false))
      = (Ok JUndefined, mkWorld (Sample.store Sample.alice_new false) ([] ++ delta)) /\
    calls_of delta = [connectivity_test] /\
    responses_of delta = [response] /\
    response = error_response "Cannot read properties of undefined (reading 'email')" /\
    answers response 500 "error" "Cannot read properties of undefined (reading 'email')".
Proof.
  split; [reflexivity |].
  apply (proj2 (proj2
           (main_checks_before_type
              (Sample.context Sample.invoice_paid)
              (Sample.start (Sample.store Sample.alice_new false))
              Sample.token eq_refl eq_refl))
           (MemCrm.shape (Sample.store Sample.alice_new false) (JObj [("results", JArr [])]))
           (Sample.store Sample.alice_new false)).
  - reflexivity.
  - vm_compute. exact I.
Defined.

(** ** Two runs against the CRM *)

Module MemCrmFacts.
Import MemCrm.

Lemma find_by_email_in email cs c :
  find_by_email email cs = Some c -> In c cs /\ contact_email c = email.
Proof.
  intros Hfind. apply find_some in Hfind. destruct Hfind as [Hin Heq].
  split; [exact Hin | apply String.eqb_eq; exact Heq].
Qed.

Lemma find_by_id_unique cs c :
  NoDup (map contact_id cs) -> In c cs -> find_by_id (contact_id c) cs = Some c.
Proof.
  induction cs as [| h cs IH]; intros Hnd Hin; [contradiction |].
  cbn [map] in Hnd. inversion Hnd as [| ? ? Hnotin Hnd']; subst.
  unfold find_by_id in *. cbn [find].
  destruct Hin as [-> | Hin].
  - rewrite String.eqb_refl. reflexivity.
  - destruct (String.eqb_spec (contact_id h) (contact_id c)) as [Heq | Hneq].
    + exfalso. apply Hnotin. rewrite Heq. apply in_map. exact Hin.
    + apply IH; assumption.
Qed.

(** After the update, the email resolves to the same contact, now with
    the value written. *)
Lemma find_by_email_after_update email cs c value :
  NoDup (map contact_id cs) ->
  find_by_email email cs = Some c ->
  find_by_email email (set_join_date (contact_id c) value cs)
    = Some (mkContact (contact_id c) (contact_email c) value).
Proof.
  induction cs as [| h cs IH]; intros Hnd Hfind; [discriminate |].
  cbn [map] in Hnd. inversion Hnd as [| ? ? Hnotin Hnd']; subst.
  unfold find_by_email in *. cbn [find set_join_date] in *.
  destruct (String.eqb_spec (contact_email h) email) as [Hmail | Hmail].
  - injection Hfind as ->. rewrite String.eqb_refl. cbn [find contact_email].
    rewrite Hmail, String.eqb_refl. reflexivity.
  - destruct (String.eqb_spec (contact_id h) (contact_id c)) as [Heq | Hneq].
    + exfalso. apply Hnotin. rewrite Heq. apply in_map.
      apply find_some in Hfind. apply Hfind.
    + cbn [find]. destruct (String.eqb_spec (contact_email h) email); [contradiction |].
      apply IH; assumption.
Qed.

Lemma select_results_shape st found :
  select_results (shape st (page_of found)) = JArr found.
Proof. unfold shape. destruct (wrapped st); reflexivity. Qed.

Lemma search_answer client email st c :
  find_by_email email (contacts st) = Some c ->
  crm_call client (DoSearch (search_request (JStr email))) st
    = (Ok (shape st (page_of [record_of c])), st).
Proof. intros Hfind. cbn. rewrite Hfind. reflexivity. Qed.

Lemma update_answer client st c value :
  find_by_id (contact_id c) (contacts st) = Some c ->
  crm_call client (Update (JStr (contact_id c)) (join_date_patch value)) st
    = (Ok (shape st (record_of (mkContact (contact_id c) (contact_email c) value))),
       mkStore (set_join_date (contact_id c) value (contacts st)) (wrapped st)).
Proof. intros Hfind. cbn. rewrite Hfind. reflexivity. Qed.

End MemCrmFacts.

Section Idempotence.
Context {platform : Platform}.
Import MemCrm MemCrmFacts.

(** C3: for a contact without a [join_date], two invocations of
    processJoinDateMapping in sequence, each with a timestamp [Date]
    accepts (the second the same, later, or any other), give [updated]
    and then [skipped] (the first result carrying the derived date as
    [joinDate], the second carrying it as [existingJoinDate]); the second
    invocation issues no update, and the [join_date] stored after it is
    the date the first invocation stored. *)
Theorem processJoinDateMapping_idempotent
    client st events email c first_event second_event t1 t2 :
  email <> "" ->
  NoDup (map contact_id (contacts st)) ->
  find_by_email email (contacts st) = Some c ->
  truthy (join_date c) = false ->
  get first_event "created" = Ok (JNum t1) ->
  get second_event "created" = Ok (JNum t2) ->
  -8640000000000 <= t1 <= 8640000000000 ->
  -8640000000000 <= t2 <= 8640000000000 ->
  exists date w1 w2,
    formatJoinDate (JNum t1) = Ok (JStr date) /\
    processJoinDateMapping client first_event (JStr email) (mkWorld st events)
      = (Ok (updated_result (JStr (contact_id c)) (JStr date) (JStr email)), w1) /\
    stored_join_date email (crm_state w1) = Some (JStr date) /\
    processJoinDateMapping client second_event (JStr email) w1
      = (Ok (skipped_result (JStr (contact_id c)) (JStr date)), w2) /\
    updates_in (trace w2) = updates_in (trace w1) /\
    stored_join_date email (crm_state w2) = Some (JStr date) /\
    (forall first second,
       fst (processJoinDateMapping client first_event (JStr email) (mkWorld st events))
         = Ok first ->
       fst (processJoinDateMapping client second_event (JStr email) w1) = Ok second ->
       prop first "action" = JStr "updated" /\
       prop first "joinDate" = JStr date /\
       prop second "action" = JStr "skipped" /\
       prop second "existingJoinDate" = JStr date).
Proof.
  intros Hemail Hnd Hfind Hunset Hfirst Hsecond Ht1 Ht2.
  destruct (formatJoinDate_text t1 Ht1) as (date & Hdate & Hdate_ne).
  destruct (formatJoinDate_text t2 Ht2) as (date2 & Hdate2 & _).
  pose proof (truthy_text email Hemail) as Htruthy.
  destruct (find_by_email_in _ _ _ Hfind) as [Hin Hmail].
  pose proof (find_by_id_unique _ _ Hnd Hin) as Hid.
  set (st1 := mkStore (set_join_date (contact_id c) (JStr date) (contacts st)) (wrapped st)).
  set (c1 := mkContact (contact_id c) (contact_email c) (JStr date)).
  assert (Hfind1 : find_by_email email (contacts st1) = Some c1)
    by (apply find_by_email_after_update; assumption).
  destruct (findContactByEmail_list client (JStr email) email (mkWorld st events)
              (shape st (page_of [record_of c])) st [record_of c] eq_refl
              (search_answer client email st c Hfind) (select_results_shape st _))
    as (logs1 & Hrun1 & Hcalls1 & _).
  set (w1 := mkWorld st1
               (((events ++ logs1) ++
                 [ECall client (Update (JStr (contact_id c)) (join_date_patch (JStr date)))]) ++
                [ELog Info [LStr ("Join date set: " ++ date ++
                                  " for contact " ++ contact_id c)]])).
  destruct (findContactByEmail_list client (JStr email) email w1
              (shape st1 (page_of [record_of c1])) st1 [record_of c1] eq_refl
              (search_answer client email st1 c1 Hfind1) (select_results_shape st1 _))
    as (logs2 & Hrun2 & Hcalls2 & _).
  exists date, w1. eexists.
  split; [exact Hdate |].
  assert (Hone : processJoinDateMapping client first_event (JStr email) (mkWorld st events)
                 = (Ok (updated_result (JStr (contact_id c)) (JStr date) (JStr email)), w1)).
  { unfold processJoinDateMapping. run_monad.
    rewrite Htruthy, Hfirst, Hdate. run_on. rewrite Hrun1. run_on.
    cbn [first_or_null record_of truthy prop lookup String.eqb Ascii.eqb Bool.eqb get nullish
         negb rbind].
    rewrite Hunset. run_on.
    rewrite (update_answer client st c (JStr date) Hid).
    cbn [ToString fst snd trace crm_state]. reflexivity. }
  split; [exact Hone |].
  split; [unfold stored_join_date; cbn [w1 crm_state]; rewrite Hfind1; reflexivity |].
  match goal with |- ?run /\ _ => assert (Htwo : run) end.
  { unfold processJoinDateMapping. run_monad.
    rewrite Htruthy, Hsecond, Hdate2. run_on. rewrite Hrun2. run_on.
    cbn [first_or_null record_of c1 truthy prop lookup String.eqb Ascii.eqb Bool.eqb get nullish
         join_date contact_id negb rbind].
    destruct (String.eqb_spec date ""); [contradiction |]. cbn [negb ToString].
    reflexivity. }
  split; [exact Htwo |].
  cbn [trace crm_state]. split; [| split].
  - rewrite !updates_in_app. unfold updates_in at 2. rewrite Hcalls2. cbn. lia.
  - unfold stored_join_date. cbn [w1 crm_state]. rewrite Hfind1. reflexivity.
  - intros first second Hfirst_result Hsecond_result.
    rewrite Hone in Hfirst_result. rewrite Htwo in Hsecond_result.
    cbn [fst] in Hfirst_result, Hsecond_result.
    injection Hfirst_result as <-. injection Hsecond_result as <-.
    repeat split; reflexivity.
Qed.

End Idempotence.

Lemma processJoinDateMapping_idempotent_witness :
  exists date w1 w2,
    formatJoinDate (JNum 1752979200) = Ok (JStr date) /\
    processJoinDateMapping Sample.client
        (Sample.event (JStr checkout_completed) Sample.alice 1752979200)
        Sample.alice (Sample.start (Sample.store Sample.alice_new false))
      = (Ok (updated_result (JStr "104951") (JStr date) Sample.alice), w1) /\
    MemCrm.stored_join_date "a@example.com" (crm_state w1) = Some (JStr date) /\
    processJoinDateMapping Sample.client
        (Sample.event (JStr checkout_completed) Sample.alice 1753065600)
        Sample.alice w1
      = (Ok (skipped_result (JStr "104951") (JStr date)), w2) /\
    updates_in (trace w2) = updates_in (trace w1) /\
    MemCrm.stored_join_date "a@example.com" (crm_state w2) = Some (JStr date) /\
    (forall first second,
       fst (processJoinDateMapping Sample.client
              (Sample.event (JStr checkout_completed) Sample.alice 1752979200)
              Sample.alice (Sample.start (Sample.store Sample.alice_new false)))
         = Ok first ->
       fst (processJoinDateMapping Sample.client
              (Sample.event (JStr checkout_completed) Sample.alice 1753065600)
              Sample.alice w1) = Ok second ->
       prop first "action" = JStr "updated" /\
       prop first "joinDate" = JStr date /\
       prop second "action" = JStr "skipped" /\
       prop second "existingJoinDate" = JStr date).
Proof.
  apply (processJoinDateMapping_idempotent Sample.client
           (Sample.store Sample.alice_new false) [] "a@example.com" Sample.alice_new
           (Sample.event (JStr checkout_completed) Sample.alice 1752979200)
           (Sample.event (JStr checkout_completed) Sample.alice 1753065600)
           1752979200 1753065600).
  - discriminate.
  - cbn. repeat constructor; cbn; intuition discriminate.
  - reflexivity.
  - reflexivity.
  - reflexivity.
  - reflexivity.
  - lia.
  - lia.
Defined.

(** Scenarios B and C of the specification, run end to end. *)
Example scenario_updated_then_skipped :
  let first :=
    processJoinDateMapping Sample.client
      (Sample.event (JStr checkout_completed) Sample.alice 1752979200)
      Sample.alice (Sample.start (Sample.store Sample.alice_new false)) in
  let second :=
    processJoinDateMapping Sample.client
      (Sample.event (JStr checkout_completed) Sample.alice 1753065600)
      Sample.alice (snd first) in
  fst first = Ok (updated_result (JStr "104951") (JStr "2025-07-20") Sample.alice) /\
  fst second = Ok (skipped_result (JStr "104951") (JStr "2025-07-20")) /\
  MemCrm.stored_join_date "a@example.com" (crm_state (snd second)) = Some (JStr "2025-07-20").
Proof. repeat split; reflexivity. Qed.

(** Scenario D: no contact has the email. *)
Example scenario_contact_not_found :
  responses_of
    (trace (snd (main (Sample.context
                         (Sample.event (JStr checkout_completed) (JStr "c@example.com")
                            1752979200))
                      (Sample.start (Sample.store Sample.alice_new false)))))
    = [error_response "No contact found with email: c@example.com"].
Proof. reflexivity. Qed.

(** * Further properties *)

(** ** formatJoinDate *)

Lemma Day_of_day_start t : JsDate.Day (JsDate.msPerDay * JsDate.Day t) = JsDate.Day t.
Proof. unfold JsDate.Day, JsDate.msPerDay. euclid. Qed.

Lemma YearFromTime_day t :
  JsDate.YearFromTime (JsDate.msPerDay * JsDate.Day t) = JsDate.YearFromTime t.
Proof.
  unfold JsDate.YearFromTime. rewrite Day_of_day_start.
  set (y := 400 * (JsDate.Day t + 719528) / 146097).
  unfold JsDate.TimeFromYear.
  assert (Hle : forall D, (JsDate.msPerDay * D <=? JsDate.msPerDay * JsDate.Day t)
                          = (JsDate.msPerDay * D <=? t)).
  { intros D. unfold JsDate.Day, JsDate.msPerDay.
    destruct (Z.leb_spec (86400000 * D) (86400000 * (t / 86400000)));
      destruct (Z.leb_spec (86400000 * D) t); try reflexivity; exfalso; euclid. }
  rewrite !Hle. reflexivity.
Qed.

Lemma date_fields_day t :
  JsDate.MonthFromTime (JsDate.msPerDay * JsDate.Day t) = JsDate.MonthFromTime t /\
  JsDate.DateFromTime (JsDate.msPerDay * JsDate.Day t) = JsDate.DateFromTime t.
Proof.
  unfold JsDate.DateFromTime, JsDate.MonthFromTime, JsDate.InLeapYear, JsDate.DayWithinYear.
  rewrite YearFromTime_day, Day_of_day_start. split; reflexivity.
Qed.

Lemma digit_injective a b :
  JsDate.digit (a mod 10) = JsDate.digit (b mod 10) -> a mod 10 = b mod 10.
Proof.
  assert (Ha : 0 <= a mod 10 < 10) by (apply Z.mod_pos_bound; lia).
  assert (Hb : 0 <= b mod 10 < 10) by (apply Z.mod_pos_bound; lia).
  unfold JsDate.digit. intros Heq.
  apply (f_equal nat_of_ascii) in Heq.
  rewrite !nat_ascii_embedding in Heq by lia. lia.
Qed.

Lemma text_injective y m d y' m' d' :
  0 <= y <= 9999 -> 0 <= y' <= 9999 ->
  1 <= m <= 12 -> 1 <= m' <= 12 -> 1 <= d <= 31 -> 1 <= d' <= 31 ->
  Civil.text y m d = Civil.text y' m' d' -> y = y' /\ m = m' /\ d = d'.
Proof.
  intros Hy Hy' Hm Hm' Hd Hd'. unfold Civil.text.
  cbn [JsDate.digits String.append]. intros Heq.
  injection Heq as E1 E2 E3 E4 E5 E6 E7 E8.
  apply digit_injective in E1, E2, E3, E4, E5, E6, E7, E8.
  repeat split; euclid.
Qed.

Lemma days_in_month_bound y m : Civil.days_in_month y m <= 31.
Proof.
  unfold Civil.days_in_month.
  destruct (Civil.leap y);
    repeat match goal with |- context [match ?x with _ => _ end] => destruct x end; lia.
Qed.

Section DateExtras.
Context {platform : Platform}.

(** X1: formatJoinDate accepts an integer timestamp exactly when it lies
    within what [Date] can hold, from -8640000000000 to 8640000000000
    seconds: inside it returns a non-empty text, outside it throws
    "Date formatting failed: Invalid time value". *)
Theorem formatJoinDate_accepted_range t :
  (-8640000000000 <= t <= 8640000000000 ->
     exists date, formatJoinDate (JNum t) = Ok (JStr date) /\ date <> "") /\
  (t < -8640000000000 \/ 8640000000000 < t ->
     formatJoinDate (JNum t) = Throw (mkError "Date formatting failed: Invalid time value")).
Proof.
  split.
  - apply formatJoinDate_text.
  - intros Hout.
    unfold formatJoinDate, times_1000, ToNumber, rbind, rcatch, option_map,
      JsDate.new_Date, JsDate.toISOString, JsDate.time_value.
    replace (Z.abs (t * 1000) <=? JsDate.maxTime) with false
      by (symmetry; apply Z.leb_gt; unfold JsDate.maxTime; lia).
    reflexivity.
Qed.

(** X2: between the years 0000 and 9999, two timestamps get the same join
    date exactly when they fall on the same UTC day: the time of day is
    dropped and two days never share a text. *)
Theorem formatJoinDate_same_utc_day t1 t2 :
  -62167219200 <= t1 <= 253402300799 ->
  -62167219200 <= t2 <= 253402300799 ->
  (formatJoinDate (JNum t1) = formatJoinDate (JNum t2) <-> t1 / 86400 = t2 / 86400).
Proof.
  intros H1 H2.
  rewrite (formatJoinDate_seconds t1 H1), (formatJoinDate_seconds t2 H2).
  destruct (civil_of_time (t1 * 1000)) as [[Hm1 Hd1] Hn1].
  destruct (civil_of_time (t2 * 1000)) as [[Hm2 Hd2] Hn2].
  pose proof (year_in_range t1 H1) as Hy1. pose proof (year_in_range t2 H2) as Hy2.
  split.
  - intros Heq.
    apply (f_equal (fun r => match r with Ok (JStr s) => s | _ => "" end)) in Heq.
    pose proof (days_in_month_bound (JsDate.YearFromTime (t1 * 1000))
                  (JsDate.MonthFromTime (t1 * 1000) + 1)).
    pose proof (days_in_month_bound (JsDate.YearFromTime (t2 * 1000))
                  (JsDate.MonthFromTime (t2 * 1000) + 1)).
    apply text_injective in Heq; try lia.
    destruct Heq as (Ey & Em & Ed).
    assert (Hday : JsDate.Day (t1 * 1000) = JsDate.Day (t2 * 1000)).
    { rewrite <- Hn1, <- Hn2, Ey, Em, Ed. reflexivity. }
    unfold JsDate.Day, JsDate.msPerDay in Hday. euclid.
  - intros Hday.
    assert (Hsame : JsDate.Day (t1 * 1000) = JsDate.Day (t2 * 1000)).
    { unfold JsDate.Day, JsDate.msPerDay. euclid. }
    rewrite <- (YearFromTime_day (t1 * 1000)), <- (YearFromTime_day (t2 * 1000)).
    rewrite <- (proj1 (date_fields_day (t1 * 1000))), <- (proj1 (date_fields_day (t2 * 1000))).
    rewrite <- (proj2 (date_fields_day (t1 * 1000))), <- (proj2 (date_fields_day (t2 * 1000))).
    rewrite Hsame. reflexivity.
Qed.
End DateExtras.

Lemma formatJoinDate_accepted_range_witness :
  (exists date, formatJoinDate (JNum 0) = Ok (JStr date) /\ date <> "") /\
  formatJoinDate (JNum 8640000000001)
    = Throw (mkError "Date formatting failed: Invalid time value").
Proof.
  split.
  - apply (proj1 (formatJoinDate_accepted_range 0)). lia.
  - apply (proj2 (formatJoinDate_accepted_range 8640000000001)). right. lia.
Defined.

Lemma formatJoinDate_same_utc_day_witness :
  formatJoinDate (JNum 1752979200) = formatJoinDate (JNum 1753055999) /\
  formatJoinDate (JNum 1752979200) <> formatJoinDate (JNum 1753056000).
Proof.
  split.
  - apply (proj2 (formatJoinDate_same_utc_day 1752979200 1753055999
                    ltac:(lia) ltac:(lia))). vm_compute. reflexivity.
  - intros Heq.
    apply (proj1 (formatJoinDate_same_utc_day 1752979200 1753056000
                    ltac:(lia) ltac:(lia))) in Heq. vm_compute in Heq. discriminate Heq.
Defined.

(** ** findContactByEmail *)

Lemma split_on_first sep s : exists p ps, split_on sep s = p :: ps.
Proof.
  induction s as [| c s IH]; cbn [split_on].
  - eexists. eexists. reflexivity.
  - destruct (Ascii.eqb c sep); [eexists; eexists; reflexivity |].
    destruct (split_on sep s); eexists; eexists; reflexivity.
Qed.

Lemma made_by_app client a b :
  made_by client a -> made_by client b -> made_by client (a ++ b).
Proof. unfold made_by. intros Ha Hb. apply Forall_app. split; assumption. Qed.

Ltac made_by_list :=
  unfold made_by; repeat (apply Forall_cons; [first [exact I | reflexivity] |]);
  try apply Forall_nil.

Section SearchExtras.
Context {platform : Platform} {S : Type} {hubspot : Crm S}.

Lemma formatJoinDate_is_text v joinDate :
  formatJoinDate v = Ok joinDate -> exists date, joinDate = JStr date.
Proof.
  unfold formatJoinDate, rcatch, rbind.
  destruct (times_1000 v) as [ms | e]; [| discriminate].
  destruct (JsDate.toISOString (JsDate.new_Date ms)) as [iso | e]; [| discriminate].
  destruct (split_on_first "T" iso) as (p & ps & Hsplit). rewrite Hsplit.
  cbn [first_piece]. intros Heq. injection Heq as <-. eexists. reflexivity.
Qed.

Lemma findContactByEmail_outcome client email w :
  exists delta,
    trace (snd (findContactByEmail client email w)) = (trace w ++ delta)%list /\
    made_by client delta /\
    match fst (findContactByEmail client email w) with
    | Ok _ => calls_of delta = [DoSearch (search_request email)]
    | Throw error =>
        (calls_of delta = [] \/ calls_of delta = [DoSearch (search_request email)]) /\
        exists cause, message error = "Contact search failed: " ++ cause
    end.
Proof.
  unfold findContactByEmail. run_monad.
  repeat (cbn [fst snd]; split_scrutinee); cbn [fst snd]; close_trace;
    (split; [made_by_list |]); cbn [calls_of flat_map app];
    first [ reflexivity
          | split; [solve [left; reflexivity | right; reflexivity]
                   | eexists; reflexivity] ].
Qed.

(** X3: when HubSpot rejects the search, findContactByEmail logs the error
    twice and throws a new error whose message is "Contact search failed: "
    followed by the rejection's message; the search is the one call made. *)
Theorem findContactByEmail_search_rejected client email w error s' :
  crm_call client (DoSearch (search_request (JStr email))) (crm_state w) = (Throw error, s') ->
  findContactByEmail client (JStr email) w =
    (Throw (mkError ("Contact search failed: " ++ message error)),
     mkWorld s'
       (trace w ++
        [ELog Info [LStr ("Searching for contact with email: " ++ email)];
         ECall client (DoSearch (search_request (JStr email)));
         ELog Error [LStr "Search error details:"; LError error];
         ELog Error [LStr "Error stack:"; LStack error]])).
Proof.
  intros Hcall. unfold findContactByEmail. run_monad.
  cbn [ToString]. rewrite Hcall. cbn [trace crm_state].
  rewrite <- !app_assoc. reflexivity.
Qed.

(** X4: findContactByEmail makes at most one CRM call, the search for the
    given email; when it returns, that search was made, and whatever it
    throws is an error whose message starts with
    "Contact search failed: ". *)
Theorem findContactByEmail_one_search_wrapped_errors client email w :
  exists delta,
    trace (snd (findContactByEmail client email w)) = (trace w ++ delta)%list /\
    match fst (findContactByEmail client email w) with
    | Ok _ => calls_of delta = [DoSearch (search_request email)]
    | Throw error =>
        (calls_of delta = [] \/ calls_of delta = [DoSearch (search_request email)]) /\
        exists cause, message error = "Contact search failed: " ++ cause
    end.
Proof.
  destruct (findContactByEmail_outcome client email w) as (delta & Htrace & _ & Hout).
  exists delta. split; assumption.
Qed.

End SearchExtras.

Lemma findContactByEmail_search_rejected_witness :
  findContactByEmail (hubspot := rejecting (mkError "HTTP-Code: 429"))
      Sample.client Sample.alice (mkWorld tt [])
    = (Throw (mkError "Contact search failed: HTTP-Code: 429"),
       mkWorld tt
         ([] ++
          [ELog Info [LStr "Searching for contact with email: a@example.com"];
           ECall Sample.client (DoSearch (search_request Sample.alice));
           ELog Error [LStr "Search error details:"; LError (mkError "HTTP-Code: 429")];
           ELog Error [LStr "Error stack:"; LStack (mkError "HTTP-Code: 429")]])).
Proof.
  apply (findContactByEmail_search_rejected (hubspot := rejecting (mkError "HTTP-Code: 429"))
           Sample.client "a@example.com" (mkWorld tt []) (mkError "HTTP-Code: 429") tt).
  reflexivity.
Defined.

(** ** processJoinDateMapping *)

Section MappingExtras.
Context {platform : Platform} {S : Type} {hubspot : Crm S}.

(** X5: when the search resolves the email to a contact whose [join_date]
    is falsy (absent, [null] or empty) and HubSpot accepts the update,
    processJoinDateMapping returns the [updated] result with the contact's
    id, the derived date and the email, having made two calls: the search,
    then one update of [join_date] to the date derived from the event's
    [created]. *)
Theorem processJoinDateMapping_first_write
    client stripeEvent email w created date resp s1 contact others existing answer s2 id_text :
  email <> "" ->
  get stripeEvent "created" = Ok created ->
  formatJoinDate created = Ok (JStr date) ->
  crm_call client (DoSearch (search_request (JStr email))) (crm_state w) = (Ok resp, s1) ->
  select_results resp = JArr (contact :: others) ->
  truthy contact = true ->
  get (prop contact "properties") "join_date" = Ok existing ->
  truthy existing = false ->
  crm_call client (Update (prop contact "id") (join_date_patch (JStr date))) s1
    = (Ok answer, s2) ->
  ToString (prop contact "id") = Ok id_text ->
  exists result delta,
    processJoinDateMapping client stripeEvent (JStr email) w =
      (Ok result, mkWorld s2 (trace w ++ delta)) /\
    result = updated_result (prop contact "id") (JStr date) (JStr email) /\
    prop result "success" = JBool true /\
    prop result "action" = JStr "updated" /\
    prop result "contactId" = prop contact "id" /\
    prop result "joinDate" = JStr date /\
    prop result "contactEmail" = JStr email /\
    calls_of delta =
      [DoSearch (search_request (JStr email));
       Update (prop contact "id") (join_date_patch (JStr date))].
Proof.
  intros Hemail Hcreated Hdate Hsearch Hsel Hcontact Hexisting Hunset Hupdate Hid.
  pose proof (truthy_text email Hemail) as Htruthy.
  destruct (findContactByEmail_list client (JStr email) email w resp s1
              (contact :: others) eq_refl Hsearch Hsel) as (logs & Hrun & Hcalls & _).
  cbn [first_or_null] in Hrun.
  unfold processJoinDateMapping. run_monad.
  rewrite Htruthy, Hcreated, Hdate. run_on. rewrite Hrun, Hcontact. run_on.
  rewrite Hexisting, Hunset. run_on. rewrite Hupdate. cbn [ToString]. rewrite Hid.
  cbn [trace crm_state]. rewrite <- !app_assoc. eexists. eexists. split; [reflexivity |].
  do 6 (split; [reflexivity |]).
  rewrite calls_of_app, Hcalls. reflexivity.
Qed.

(** X6: when HubSpot rejects the update, processJoinDateMapping throws that
    very error, unwrapped, after logging "Processing failed"; the search
    and the one rejected update are the calls made, with no retry. *)
Theorem processJoinDateMapping_update_rejected
    client stripeEvent email w created joinDate resp s1 contact others existing error s2 :
  email <> "" ->
  get stripeEvent "created" = Ok created ->
  formatJoinDate created = Ok joinDate ->
  crm_call client (DoSearch (search_request (JStr email))) (crm_state w) = (Ok resp, s1) ->
  select_results resp = JArr (contact :: others) ->
  truthy contact = true ->
  get (prop contact "properties") "join_date" = Ok existing ->
  truthy existing = false ->
  crm_call client (Update (prop contact "id") (join_date_patch joinDate)) s1
    = (Throw error, s2) ->
  exists delta,
    processJoinDateMapping client stripeEvent (JStr email) w =
      (Throw error,
       mkWorld s2
         (trace w ++ delta ++
          [ELog Error [LStr ("Processing failed: " ++ message error)]])) /\
    calls_of delta =
      [DoSearch (search_request (JStr email));
       Update (prop contact "id") (join_date_patch joinDate)].
Proof.
  intros Hemail Hcreated Hdate Hsearch Hsel Hcontact Hexisting Hunset Hupdate.
  pose proof (truthy_text email Hemail) as Htruthy.
  destruct (findContactByEmail_list client (JStr email) email w resp s1
              (contact :: others) eq_refl Hsearch Hsel) as (logs & Hrun & Hcalls & _).
  cbn [first_or_null] in Hrun.
  unfold processJoinDateMapping. run_monad.
  rewrite Htruthy, Hcreated, Hdate. run_on. rewrite Hrun, Hcontact. run_on.
  rewrite Hexisting, Hunset. run_on. rewrite Hupdate. cbn [trace crm_state].
  exists (logs ++ [ECall client (Update (prop contact "id") (join_date_patch joinDate))])%list.
  split; [rewrite <- !app_assoc; reflexivity |].
  rewrite calls_of_app, Hcalls. reflexivity.
Qed.

(** X7: when the search finds nothing, processJoinDateMapping throws
    "No contact found with email: " followed by the email; the search is
    the one call made and nothing is written. *)
Theorem processJoinDateMapping_contact_not_found
    client stripeEvent email w created joinDate resp s1 :
  email <> "" ->
  get stripeEvent "created" = Ok created ->
  formatJoinDate created = Ok joinDate ->
  crm_call client (DoSearch (search_request (JStr email))) (crm_state w) = (Ok resp, s1) ->
  select_results resp = JArr [] ->
  exists delta,
    processJoinDateMapping client stripeEvent (JStr email) w =
      (Throw (mkError ("No contact found with email: " ++ email)),
       mkWorld s1 (trace w ++ delta)) /\
    calls_of delta = [DoSearch (search_request (JStr email))].
Proof.
  intros Hemail Hcreated Hdate Hsearch Hsel.
  pose proof (truthy_text email Hemail) as Htruthy.
  destruct (findContactByEmail_list client (JStr email) email w resp s1
              [] eq_refl Hsearch Hsel) as (logs & Hrun & Hcalls & _).
  cbn [first_or_null] in Hrun.
  unfold processJoinDateMapping. run_monad.
  rewrite Htruthy, Hcreated, Hdate. run_on. rewrite Hrun.
  cbn [truthy negb ToString trace crm_state message].
  rewrite <- !app_assoc. eexists. split; [reflexivity |].
  rewrite calls_of_app, Hcalls. reflexivity.
Qed.

(** X8: when the record found has no [properties], processJoinDateMapping
    throws the TypeError of reading [join_date] from it; the search is the
    one call made and nothing is written. *)
Theorem processJoinDateMapping_contact_without_properties
    client stripeEvent email w created joinDate resp s1 contact others :
  email <> "" ->
  get stripeEvent "created" = Ok created ->
  formatJoinDate created = Ok joinDate ->
  crm_call client (DoSearch (search_request (JStr email))) (crm_state w) = (Ok resp, s1) ->
  select_results resp = JArr (contact :: others) ->
  truthy contact = true ->
  nullish (prop contact "properties") = true ->
  exists delta,
    processJoinDateMapping client stripeEvent (JStr email) w =
      (Throw (TypeError_read (prop contact "properties") "join_date"),
       mkWorld s1 (trace w ++ delta)) /\
    calls_of delta = [DoSearch (search_request (JStr email))].
Proof.
  intros Hemail Hcreated Hdate Hsearch Hsel Hcontact Hprops.
  pose proof (truthy_text email Hemail) as Htruthy.
  destruct (findContactByEmail_list client (JStr email) email w resp s1
              (contact :: others) eq_refl Hsearch Hsel) as (logs & Hrun & Hcalls & _).
  cbn [first_or_null] in Hrun.
  unfold processJoinDateMapping. run_monad.
  rewrite Htruthy, Hcreated, Hdate. run_on. rewrite Hrun, Hcontact. run_on.
  unfold get. rewrite Hprops. cbn [trace crm_state].
  rewrite <- !app_assoc. eexists. split; [reflexivity |].
  rewrite calls_of_app, Hcalls. reflexivity.
Qed.

(** X9: when the event's [created] cannot be read or formatted (the event
    is nullish, [created] is missing, or the value is outside what [Date]
    holds), processJoinDateMapping throws that error after logging it and
    makes no CRM call at all. *)
Theorem processJoinDateMapping_date_failure_before_lookup
    client stripeEvent customerEmail (w : World S) error :
  truthy customerEmail = true ->
  rbind (get stripeEvent "created") formatJoinDate = Throw error ->
  processJoinDateMapping client stripeEvent customerEmail w =
    (Throw error,
     mkWorld (crm_state w)
       (trace w ++ [ELog Error [LStr ("Processing failed: " ++ message error)]])).
Proof.
  intros Htruthy Hfail.
  unfold processJoinDateMapping. run_monad. rewrite Htruthy. run_on.
  destruct (get stripeEvent "created") as [created | e]; cbn [rbind] in Hfail.
  - rewrite Hfail. reflexivity.
  - injection Hfail as ->. reflexivity.
Qed.

Ltac ends_with_last :=
  repeat match goal with
         | |- context [(?p ++ ?a :: ?b :: ?r)%list] =>
             change (p ++ a :: b :: r)%list with (p ++ [a] ++ b :: r)%list;
             rewrite (app_assoc p [a])
         end;
  first [ eexists; reflexivity
        | exists []; reflexivity
        | match goal with |- exists before, [?a; ?x] = _ => exists [a]; reflexivity end ].

Ltac run_search_outcome :=
  match goal with
  | |- context [findContactByEmail ?c ?e ?w0] =>
      let F := fresh "F" in
      destruct (findContactByEmail_outcome c e w0) as (d0 & F & Fm & Fo);
      destruct (findContactByEmail c e w0) as [[?contact | ?e0] ?w1] eqn:?;
      cbn [fst snd] in F, Fo;
      [ | destruct Fo as [[Fo | Fo] [cause Hcause]] ]
  end.

Lemma processJoinDateMapping_outcome client stripeEvent customerEmail w :
  exists delta,
    trace (snd (processJoinDateMapping client stripeEvent customerEmail w))
      = (trace w ++ delta)%list /\
    made_by client delta /\
    (calls_of delta = [] \/
     calls_of delta = [DoSearch (search_request customerEmail)] \/
     exists contact created joinDate,
       get stripeEvent "created" = Ok created /\
       formatJoinDate created = Ok joinDate /\
       calls_of delta =
         [DoSearch (search_request customerEmail);
          Update (prop contact "id") (join_date_patch joinDate)]) /\
    match fst (processJoinDateMapping client stripeEvent customerEmail w) with
    | Ok result =>
        prop result "success" = JBool true /\
        ((prop result "action" = JStr "skipped" /\ updates_in delta = 0%nat) \/
         (prop result "action" = JStr "updated" /\ updates_in delta = 1%nat))
    | Throw error =>
        exists before,
          delta = (before ++ [ELog Error [LStr ("Processing failed: " ++ message error)]])%list
    end.
Proof.
  unfold processJoinDateMapping. run_monad.
  repeat (cbn [fst snd]; first [ run_search_outcome | split_scrutinee ]);
    cbn [fst snd]; close_trace;
    (split; [repeat (apply made_by_app; [| made_by_list]); first [exact Fm | made_by_list] |]).
  all: unfold updates_in; rewrite ?calls_of_app, ?Fo;
    cbn [calls_of flat_map app filter is_update List.length Nat.add].
  all: split;
    [ first [ left; reflexivity
            | right; left; reflexivity
            | right; right; do 3 eexists; repeat split; eassumption || reflexivity ]
    | first [ split; [reflexivity | first [left; split; reflexivity | right; split; reflexivity]]
            | ends_with_last ] ].
Qed.

(** X10: the CRM calls of one run of processJoinDateMapping are none, or
    the search for the customer email, or that search followed by one
    update that sets [join_date] to the date derived from the event's
    [created]; all are made with the client it was given.  An update is
    never issued before the search, and never with another value. *)
Theorem processJoinDateMapping_calls client stripeEvent customerEmail w :
  exists delta,
    trace (snd (processJoinDateMapping client stripeEvent customerEmail w))
      = (trace w ++ delta)%list /\
    made_by client delta /\
    (calls_of delta = [] \/
     calls_of delta = [DoSearch (search_request customerEmail)] \/
     exists contact created joinDate,
       get stripeEvent "created" = Ok created /\
       formatJoinDate created = Ok joinDate /\
       calls_of delta =
         [DoSearch (search_request customerEmail);
          Update (prop contact "id") (join_date_patch joinDate)]).
Proof.
  destruct (processJoinDateMapping_outcome client stripeEvent customerEmail w)
    as (delta & Htrace & Hclient & Hcalls & _).
  exists delta. repeat split; assumption.
Qed.

(** X11: a run of processJoinDateMapping that returns gives a result with
    [success] true whose [action] is [skipped], with no update issued, or
    [updated], with exactly one; a run that throws has logged
    "Processing failed: " and the error's message as its last act. *)
Theorem processJoinDateMapping_result_kinds client stripeEvent customerEmail w :
  exists delta,
    trace (snd (processJoinDateMapping client stripeEvent customerEmail w))
      = (trace w ++ delta)%list /\
    match fst (processJoinDateMapping client stripeEvent customerEmail w) with
    | Ok result =>
        prop result "success" = JBool true /\
        ((prop result "action" = JStr "skipped" /\ updates_in delta = 0%nat) \/
         (prop result "action" = JStr "updated" /\ updates_in delta = 1%nat))
    | Throw error =>
        exists before,
          delta = (before ++ [ELog Error [LStr ("Processing failed: " ++ message error)]])%list
    end.
Proof.
  destruct (processJoinDateMapping_outcome client stripeEvent customerEmail w)
    as (delta & Htrace & _ & _ & Hout).
  exists delta. split; assumption.
Qed.

End MappingExtras.

Lemma processJoinDateMapping_first_write_witness :
  exists result delta,
    processJoinDateMapping (hubspot := answering (MoreSamples.page [MoreSamples.unset_record]))
        Sample.client MoreSamples.checkout Sample.alice (mkWorld tt [])
      = (Ok result, mkWorld tt ([] ++ delta)) /\
    result = updated_result (JStr "9") (JStr "2025-07-20") Sample.alice /\
    prop result "success" = JBool true /\
    prop result "action" = JStr "updated" /\
    prop result "contactId" = JStr "9" /\
    prop result "joinDate" = JStr "2025-07-20" /\
    prop result "contactEmail" = JStr "a@example.com" /\
    calls_of delta =
      [DoSearch (search_request Sample.alice);
       Update (JStr "9") (join_date_patch (JStr "2025-07-20"))].
Proof.
  apply (processJoinDateMapping_first_write
           (hubspot := answering (MoreSamples.page [MoreSamples.unset_record]))
           Sample.client MoreSamples.checkout "a@example.com" (mkWorld tt [])
           (JNum 1752979200) "2025-07-20"
           (MoreSamples.page [MoreSamples.unset_record]) tt
           MoreSamples.unset_record [] JNull
           (MoreSamples.page [MoreSamples.unset_record]) tt "9");
    solve [discriminate | reflexivity].
Defined.

Lemma processJoinDateMapping_update_rejected_witness :
  exists delta,
    processJoinDateMapping
        (hubspot := read_only (MoreSamples.page [MoreSamples.unset_record])
                      (mkError "HTTP-Code: 409"))
        Sample.client MoreSamples.checkout Sample.alice (mkWorld tt [])
      = (Throw (mkError "HTTP-Code: 409"),
         mkWorld tt
           ([] ++ delta ++ [ELog Error [LStr "Processing failed: HTTP-Code: 409"]])) /\
    calls_of delta =
      [DoSearch (search_request Sample.alice);
       Update (JStr "9") (join_date_patch (JStr "2025-07-20"))].
Proof.
  apply (processJoinDateMapping_update_rejected
           (hubspot := read_only (MoreSamples.page [MoreSamples.unset_record])
                         (mkError "HTTP-Code: 409"))
           Sample.client MoreSamples.checkout "a@example.com" (mkWorld tt [])
           (JNum 1752979200) (JStr "2025-07-20")
           (MoreSamples.page [MoreSamples.unset_record]) tt
           MoreSamples.unset_record [] JNull (mkError "HTTP-Code: 409") tt);
    solve [discriminate | reflexivity].
Defined.

Lemma processJoinDateMapping_contact_not_found_witness :
  exists delta,
    processJoinDateMapping (hubspot := answering (MoreSamples.page []))
        Sample.client MoreSamples.checkout Sample.alice (mkWorld tt [])
      = (Throw (mkError "No contact found with email: a@example.com"),
         mkWorld tt ([] ++ delta)) /\
    calls_of delta = [DoSearch (search_request Sample.alice)].
Proof.
  apply (processJoinDateMapping_contact_not_found
           (hubspot := answering (MoreSamples.page []))
           Sample.client MoreSamples.checkout "a@example.com" (mkWorld tt [])
           (JNum 1752979200) (JStr "2025-07-20") (MoreSamples.page []) tt);
    solve [discriminate | reflexivity].
Defined.

Lemma processJoinDateMapping_contact_without_properties_witness :
  exists delta,
    processJoinDateMapping (hubspot := answering (MoreSamples.page [MoreSamples.bare_record]))
        Sample.client MoreSamples.checkout Sample.alice (mkWorld tt [])
      = (Throw (mkError "Cannot read properties of undefined (reading 'join_date')"),
         mkWorld tt ([] ++ delta)) /\
    calls_of delta = [DoSearch (search_request Sample.alice)].
Proof.
  apply (processJoinDateMapping_contact_without_properties
           (hubspot := answering (MoreSamples.page [MoreSamples.bare_record]))
           Sample.client MoreSamples.checkout "a@example.com" (mkWorld tt [])
           (JNum 1752979200) (JStr "2025-07-20")
           (MoreSamples.page [MoreSamples.bare_record]) tt MoreSamples.bare_record []);
    solve [discriminate | reflexivity].
Defined.

Lemma processJoinDateMapping_date_failure_before_lookup_witness :
  processJoinDateMapping Sample.client MoreSamples.undated_event Sample.alice
      (Sample.start (Sample.store Sample.alice_new false))
    = (Throw (mkError "Date formatting failed: Invalid time value"),
       mkWorld (Sample.store Sample.alice_new false)
         ([] ++ [ELog Error
                   [LStr "Processing failed: Date formatting failed: Invalid time value"]])).
Proof.
  apply (processJoinDateMapping_date_failure_before_lookup
           Sample.client MoreSamples.undated_event Sample.alice
           (Sample.start (Sample.store Sample.alice_new false))
           (mkError "Date formatting failed: Invalid time value"));
    reflexivity.
Defined.

(** ** exports.main *)

Lemma json_copy_property fields k :
  lookup k fields <> JUndefined ->
  prop (json_copy (JObj fields)) k = json_copy (lookup k fields).
Proof.
  induction fields as [| [k' x] rest IH]; intros Hdef.
  - cbn in Hdef. contradiction.
  - cbn [lookup] in Hdef |- *.
    destruct (String.eqb_spec k k') as [-> | Hneq].
    + destruct x; try contradiction; cbn; rewrite String.eqb_refl; reflexivity.
    + specialize (IH Hdef).
      destruct x; cbn in IH |- *;
        try (destruct (String.eqb_spec k k'); [contradiction |]); exact IH.
Qed.

Section MainExtras.
Context {platform : Platform} {S : Type} {hubspot : Crm S}.

(** X12: when [context.secrets.joinDateKey] cannot be read or is falsy, the
    handler sends one response with code 500 and makes no CRM call; for a
    falsy key the message is "Missing required secret: joinDateKey". *)
Theorem main_missing_secret context (w : World S) :
  (forall token, read_secret context = Ok token -> truthy token = false) ->
  exists text,
    main context w =
      (Ok JUndefined,
       mkWorld (crm_state w)
         (trace w ++
          [ELog Info [LStr "BWC Join Date Mapping Started"];
           ELog Error [LStr ("Function error: " ++ text)];
           EResponse (error_response text)])) /\
    (forall token, read_secret context = Ok token ->
       text = "Missing required secret: joinDateKey") /\
    answers (error_response text) 500 "error" text.
Proof.
  intros Hmissing. unfold main, main_with, main_try. run_monad.
  destruct (read_secret context) as [token | error].
  - rewrite (Hmissing token eq_refl). run_on. rewrite <- !app_assoc.
    eexists. split; [reflexivity |]. split; [intros; reflexivity |].
    repeat split; reflexivity.
  - run_on. rewrite <- !app_assoc. eexists. split; [reflexivity |].
    split; [intros; discriminate |]. repeat split; reflexivity.
Qed.

Lemma processJoinDateMapping_returns_object client stripeEvent customerEmail (w : World S) result :
  fst (processJoinDateMapping client stripeEvent customerEmail w) = Ok result ->
  nullish result = false.
Proof.
  intros Hok.
  destruct (processJoinDateMapping_outcome client stripeEvent customerEmail w)
    as (delta & _ & _ & _ & Hout).
  rewrite Hok in Hout. destruct Hout as [Hsuccess _].
  destruct result; cbn in Hsuccess |- *; congruence.
Qed.

(** The world in which processJoinDateMapping starts: the connectivity test
    has been answered and the console lines before the call are out. *)
Lemma main_after_checks context (w : World S) token answer s1 email stripeEvent id id_text :
  read_secret context = Ok token -> truthy token = true ->
  crm_call (mkClient token) connectivity_test (crm_state w) = (Ok answer, s1) ->
  read_customer_email context = Ok email -> truthy email = true ->
  rbind (get context "body") parse_event = Ok stripeEvent ->
  get stripeEvent "type" = Ok (JStr checkout_completed) ->
  get stripeEvent "id" = Ok id ->
  ToString id = Ok id_text ->
  main context w =
    match processJoinDateMapping (mkClient token) stripeEvent email
            (mkWorld s1 (processing_started w token email id_text)) with
    | (Ok result, w2) =>
        (Ok JUndefined,
         mkWorld (crm_state w2) (trace w2 ++ [EResponse (success_response result id)]))
    | (Throw error, w2) =>
        (Ok JUndefined,
         mkWorld (crm_state w2)
           (trace w2 ++
            [ELog Error [LStr ("Function error: " ++ message error)];
             EResponse (error_response (message error))]))
    end.
Proof.
  intros Htoken Htruthy Hcall Hmail Hmailt Hevent Htype Hid Hidt.
  unfold connectivity_test in Hcall.
  unfold main, main_with, main_try, processing_started. run_monad.
  rewrite Htoken, Htruthy. run_on. rewrite Hcall. run_on.
  rewrite Hmail, Hmailt. run_on. rewrite Hevent, Htype.
  cbn [differs_from]. rewrite String.eqb_refl. cbn [negb].
  rewrite Hid, Hidt. cbn [fst snd trace crm_state].
  rewrite <- !app_assoc. cbn [app].
  match goal with
  | |- context [processJoinDateMapping ?c ?e ?m ?w0] =>
      pose proof (processJoinDateMapping_returns_object c e m w0) as Hobj;
      destruct (processJoinDateMapping c e m w0) as [[result | error] w2]
  end; cbn [fst] in Hobj.
  - unfold get. rewrite (Hobj result eq_refl). cbn [trace crm_state].
    rewrite <- ?app_assoc. reflexivity.
  - cbn [trace crm_state]. rewrite <- ?app_assoc. reflexivity.
Qed.

(** X13: for a checkout-completed event that passed the checks, the handler
    relays processJoinDateMapping.  Its result goes out as one response
    with code 200 and status [success] that carries the result's [action]
    and [message], its [contactId], [joinDate], [contactEmail] and
    [existingJoinDate], and the event's id; its error goes out as one
    response with code 500, status [error] and the error's message.  The
    CRM is left as processJoinDateMapping left it. *)
Theorem main_relays_outcome context (w : World S) token answer s1 email stripeEvent id id_text :
  read_secret context = Ok token -> truthy token = true ->
  crm_call (mkClient token) connectivity_test (crm_state w) = (Ok answer, s1) ->
  read_customer_email context = Ok email -> truthy email = true ->
  rbind (get context "body") parse_event = Ok stripeEvent ->
  get stripeEvent "type" = Ok (JStr checkout_completed) ->
  get stripeEvent "id" = Ok id ->
  ToString id = Ok id_text ->
  let run := processJoinDateMapping (mkClient token) stripeEvent email
               (mkWorld s1 (processing_started w token email id_text)) in
  exists response,
    fst (main context w) = Ok JUndefined /\
    crm_state (snd (main context w)) = crm_state (snd run) /\
    responses_of (trace (snd (main context w))) = (responses_of (trace w) ++ [response])%list /\
    match fst run with
    | Ok result =>
        response = success_response result id /\
        status_code response = JNum 200 /\
        status response = JStr "success" /\
        prop (prop response "body") "action" = prop result "action" /\
        prop (prop response "body") "message" = prop result "message" /\
        data_of response "contactId" = prop result "contactId" /\
        data_of response "joinDate" = prop result "joinDate" /\
        data_of response "contactEmail" = prop result "contactEmail" /\
        data_of response "existingJoinDate" = prop result "existingJoinDate" /\
        data_of response "eventId" = id
    | Throw error =>
        response = error_response (message error) /\
        answers response 500 "error" (message error)
    end.
Proof.
  intros Htoken Htruthy Hcall Hmail Hmailt Hevent Htype Hid Hidt run.
  pose proof (main_after_checks context w token answer s1 email stripeEvent id id_text
                Htoken Htruthy Hcall Hmail Hmailt Hevent Htype Hid Hidt) as Hmain.
  destruct (processJoinDateMapping_quiet (mkClient token) stripeEvent email
              (mkWorld s1 (processing_started w token email id_text)))
    as (delta & Htrace & Hquiet).
  fold run in Htrace, Hmain.
  destruct run as [[result | error] w2]; cbn [fst snd trace crm_state] in *;
    eexists; rewrite Hmain; cbn [fst snd trace crm_state];
    (split; [reflexivity |]); (split; [reflexivity |]);
    (split;
     [ rewrite responses_of_app, Htrace, responses_of_app, Hquiet;
       unfold processing_started; rewrite responses_of_app; cbn; rewrite !app_nil_r;
       reflexivity
     | repeat split; reflexivity ]).
Qed.

Ltac run_mapping_outcome :=
  match goal with
  | |- context [processJoinDateMapping ?c ?e ?m ?w0] =>
      let F := fresh "F" in
      destruct (processJoinDateMapping_outcome c e m w0) as (dp & F & Fm & Fc & _);
      destruct (processJoinDateMapping c e m w0) eqn:?;
      cbn [fst snd trace crm_state] in F
  end.

(** X14: one invocation of the handler makes at most three CRM calls, in
    this order: the connectivity test, the search for the event's customer
    email, one update of [join_date]; each is made with the client built
    from the secret. *)
Theorem main_calls_in_order context (w : World S) :
  exists delta,
    trace (snd (main context w)) = (trace w ++ delta)%list /\
    (forall token, read_secret context = Ok token -> made_by (mkClient token) delta) /\
    (calls_of delta = [] \/
     calls_of delta = [connectivity_test] \/
     exists email,
       read_customer_email context = Ok email /\
       (calls_of delta = [connectivity_test; DoSearch (search_request email)] \/
        exists id joinDate,
          calls_of delta =
            [connectivity_test; DoSearch (search_request email);
             Update id (join_date_patch joinDate)])).
Proof.
  unfold main, main_with, main_try, connectivity_test. run_monad.
  repeat (cbn [fst snd]; first [ run_mapping_outcome | split_scrutinee ]);
    cbn [fst snd]; close_trace.
  all: split;
    [ intros token Htoken;
      try discriminate;
      try (injection Htoken as <-);
      repeat first [ apply made_by_app; [| made_by_list] | apply made_by_app; [made_by_list |] ];
      first [ exact Fm | made_by_list ]
    | ].
  all: rewrite ?calls_of_app; cbn [calls_of flat_map app].
  all: try (destruct Fc as [Fc | [Fc | (contact & created & joinDate & _ & _ & Fc)]];
            rewrite Fc; cbn [app]).
  all: first [ left; reflexivity
             | right; left; reflexivity
             | right; right; eexists; split; [reflexivity |];
               first [ left; reflexivity | right; eexists; eexists; reflexivity ] ].
Qed.

(** X15: a body that arrives as text is never parsed: with the credential
    present and the connectivity test passed, the handler fails on reading
    the customer email from it and answers with code 500, before the
    [JSON.parse] of the text is reached. *)
Theorem main_text_body context (w : World S) token answer s1 rawBody :
  read_secret context = Ok token -> truthy token = true ->
  crm_call (mkClient token) connectivity_test (crm_state w) = (Ok answer, s1) ->
  get context "body" = Ok (JStr rawBody) ->
  exists delta,
    main context w = (Ok JUndefined, mkWorld s1 (trace w ++ delta)) /\
    calls_of delta = [connectivity_test] /\
    responses_of delta =
      [error_response "Cannot read properties of undefined (reading 'object')"] /\
    answers (error_response "Cannot read properties of undefined (reading 'object')")
      500 "error" "Cannot read properties of undefined (reading 'object')".
Proof.
  intros Htoken Htruthy Hcall Hbody. unfold connectivity_test in Hcall.
  unfold main, main_with, main_try, read_customer_email. run_monad.
  rewrite Htoken, Htruthy. run_on. rewrite Hcall. run_on.
  rewrite Hbody. cbn. rewrite <- !app_assoc.
  eexists. split; [reflexivity |]. repeat split; reflexivity.
Qed.

(** X16: the event the handler works on, the JSON copy of an object body,
    has the body's own text and number properties unchanged, and the copy
    of each object property. *)
Theorem parse_event_keeps_properties fields k :
  (forall text, lookup k fields = JStr text ->
     rbind (parse_event (JObj fields)) (fun stripeEvent => get stripeEvent k) = Ok (JStr text)) /\
  (forall z, lookup k fields = JNum z ->
     rbind (parse_event (JObj fields)) (fun stripeEvent => get stripeEvent k) = Ok (JNum z)) /\
  (forall inner, lookup k fields = JObj inner ->
     rbind (parse_event (JObj fields)) (fun stripeEvent => get stripeEvent k)
       = Ok (json_copy (JObj inner))).
Proof.
  assert (Hcopy : forall v, lookup k fields = v -> v <> JUndefined ->
            rbind (parse_event (JObj fields)) (fun stripeEvent => get stripeEvent k)
              = Ok (json_copy v)).
  { intros v Hv Hdef. cbn [parse_event rbind]. unfold get.
    change (nullish (json_copy (JObj fields))) with false. cbn iota.
    rewrite json_copy_property by (rewrite Hv; exact Hdef).
    rewrite Hv. reflexivity. }
  split; [| split]; intros x Hx; apply (Hcopy _ Hx); discriminate.
Qed.
End MainExtras.

Lemma main_missing_secret_witness :
  exists text,
    main MoreSamples.keyless_context (Sample.start (Sample.store Sample.alice_new false))
      = (Ok JUndefined,
         mkWorld (Sample.store Sample.alice_new false)
           ([] ++
            [ELog Info [LStr "BWC Join Date Mapping Started"];
             ELog Error [LStr ("Function error: " ++ text)];
             EResponse (error_response text)])) /\
    (forall token, read_secret MoreSamples.keyless_context = Ok token ->
       text = "Missing required secret: joinDateKey") /\
    answers (error_response text) 500 "error" text.
Proof.
  apply (main_missing_secret MoreSamples.keyless_context
           (Sample.start (Sample.store Sample.alice_new false))).
  intros token Hread. vm_compute in Hread. injection Hread as <-. reflexivity.
Defined.

Lemma main_relays_outcome_witness :
  exists response,
    responses_of
      (trace (snd (main (hubspot := answering (MoreSamples.page [MoreSamples.unset_record]))
                     (Sample.context MoreSamples.checkout) (mkWorld tt []))))
      = [response] /\
    status_code response = JNum 200 /\
    status response = JStr "success" /\
    prop (prop response "body") "action" = JStr "updated" /\
    data_of response "contactId" = JStr "9" /\
    data_of response "joinDate" = JStr "2025-07-20" /\
    data_of response "contactEmail" = JStr "a@example.com" /\
    data_of response "eventId" = JStr "evt_1".
Proof.
  destruct (main_relays_outcome
              (hubspot := answering (MoreSamples.page [MoreSamples.unset_record]))
              (Sample.context MoreSamples.checkout) (mkWorld tt [])
              Sample.token (MoreSamples.page [MoreSamples.unset_record]) tt
              Sample.alice MoreSamples.checkout (JStr "evt_1") "evt_1"
              eq_refl eq_refl eq_refl eq_refl eq_refl eq_refl eq_refl eq_refl eq_refl)
    as (response & _ & _ & Hsent & Hfields).
  vm_compute in Hfields.
  destruct Hfields as (Hresponse & Hcode & Hstatus & Haction & _ & Hid & Hdate & Hmail & _ & Hevent).
  exists response. repeat split; assumption.
Defined.

Lemma main_calls_in_order_witness :
  exists delta,
    trace (snd (main (Sample.context MoreSamples.checkout)
                     (Sample.start (Sample.store Sample.alice_new false))))
      = ([] ++ delta)%list /\
    (forall token, read_secret (Sample.context MoreSamples.checkout) = Ok token ->
       made_by (mkClient token) delta) /\
    (calls_of delta = [] \/
     calls_of delta = [connectivity_test] \/
     exists email,
       read_customer_email (Sample.context MoreSamples.checkout) = Ok email /\
       (calls_of delta = [connectivity_test; DoSearch (search_request email)] \/
        exists id joinDate,
          calls_of delta =
            [connectivity_test; DoSearch (search_request email);
             Update id (join_date_patch joinDate)])).
Proof.
  exact (main_calls_in_order (Sample.context MoreSamples.checkout)
           (Sample.start (Sample.store Sample.alice_new false))).
Defined.

Lemma main_text_body_witness :
  exists delta,
    main MoreSamples.text_context (Sample.start (Sample.store Sample.alice_new false))
      = (Ok JUndefined, mkWorld (Sample.store Sample.alice_new false) ([] ++ delta)) /\
    calls_of delta = [connectivity_test] /\
    responses_of delta =
      [error_response "Cannot read properties of undefined (reading 'object')"] /\
    answers (error_response "Cannot read properties of undefined (reading 'object')")
      500 "error" "Cannot read properties of undefined (reading 'object')".
Proof.
  apply (main_text_body MoreSamples.text_context
           (Sample.start (Sample.store Sample.alice_new false))
           Sample.token
           (MemCrm.shape (Sample.store Sample.alice_new false) (JObj [("results", JArr [])]))
           (Sample.store Sample.alice_new false) "{}");
    reflexivity.
Defined.

Lemma parse_event_keeps_properties_witness :
  rbind (parse_event Sample.invoice_paid) (fun stripeEvent => get stripeEvent "type")
    = Ok (JStr "invoice.paid").
Proof.
  apply (proj1 (parse_event_keeps_properties
                  [("id", JStr "evt_2");
                   ("type", JStr "invoice.paid");
                   ("created", JNum 1752979200);
                   ("data", JObj [("object", JObj [("customer_email", Sample.alice)])])]
                  "type") "invoice.paid").
  reflexivity.
Defined.
